(** * tiptap-starter-kit: the code-block node extension and the float menu view

    A shallow embedding of [src/nodes/code-block.ts] (the [CodeBlock]
    extension) and of the [FloatMenuView] class, together with the
    properties the specification states about them.

    JavaScript values are modelled as follows: a string is a [string]; a
    property that may be [undefined] is an [option]; an object used as a
    dictionary (node attributes) is a [gmap string string]; an array is a
    [list].  Code that mutates the editor, the DOM controls or the popover
    is written in state-passing style over a record of the cells it
    touches. *)

From stdpp Require Import base strings list gmap.

Local Open Scope string_scope.
Local Open Scope list_scope.
Set Warnings "-register-all".

(** ** JavaScript operators used by the sources *)

(** [a || ""] on an optional string: [undefined] and the empty string are
    both falsy. *)
Definition js_or_empty (a : option string) : string :=
  match a with
  | Some (String c s) => String c s
  | Some EmptyString => ""
  | None => ""
  end.

(** Assigning a value to a DOM string property converts it with ToString. *)
Definition to_DOMString (a : option string) : string :=
  match a with
  | Some s => s
  | None => "undefined"
  end.

(** [s.split(sep)] for a one-character separator: the pieces between the
    separators, empty pieces included; the empty string gives one empty
    piece. *)
Fixpoint split (sep : Ascii.ascii) (s : string) : list string :=
  match s with
  | EmptyString => [EmptyString]
  | String c rest =>
      if Ascii.eqb c sep
      then EmptyString :: split sep rest
      else match split sep rest with
           | piece :: pieces => String c piece :: pieces
           | [] => [String c EmptyString]
           end
  end.


(** ** The host framework's document model, as the extension sees it *)

Module PM.

(** Node attributes: [{ [name: string]: value }], values kept as strings. *)
Abbreviation Attrs := (gmap string string).

(** A node type of the schema: its name and the defaults of the attributes
    it declares. *)
Record NodeType := {
  name : string;
  attr_defaults : Attrs;
}.

#[global] Instance NodeType_eq_dec : EqDecision NodeType.
Proof. solve_decision. Defined.

(** The schema's built-in text node type. *)
Definition text_type : NodeType := {| name := "text"; attr_defaults := ∅ |}.

(** A document node: a text leaf, or an element with attributes and a
    fragment of children. *)
Inductive Node :=
| Text (text : string)
| Elem (type : NodeType) (attrs : Attrs) (content : list Node).

Definition type (n : Node) : NodeType :=
  match n with Text _ => text_type | Elem t _ _ => t end.

Definition attrs (n : Node) : Attrs :=
  match n with Text _ => ∅ | Elem _ a _ => a end.

Definition content (n : Node) : list Node :=
  match n with Text _ => [] | Elem _ _ c => c end.

(** [node.text]: defined on text nodes only. *)
Definition text (n : Node) : option string :=
  match n with Text s => Some s | Elem _ _ _ => None end.

Definition isText (n : Node) : bool :=
  match n with Text _ => true | Elem _ _ _ => false end.

(** [fragment.firstChild] *)
Definition firstChild (c : list Node) : option Node := head c.

(** [node.content.firstChild?.text] *)
Definition firstChild_text (n : Node) : option string :=
  match firstChild (content n) with
  | Some child => text child
  | None => None
  end.

(** [node.attrs.language] *)
Definition attrs_language (n : Node) : option string := attrs n !! "language".

(** Attribute computation of [NodeType.create]: every declared attribute
    takes the given value, or its default when none is given; undeclared
    names are dropped. *)
Definition computeAttrs (defaults given : Attrs) : Attrs :=
  map_imap (λ k d, Some (default d (given !! k))) defaults.

(** [type.create(attrs, content)] *)
Definition create (t : NodeType) (given : Attrs) (c : list Node) : Node :=
  Elem t (computeAttrs (attr_defaults t) given) c.

(** [tr.setNodeMarkup(pos, type, attrs)] on a document whose blocks are
    addressed by position: the node at [pos] is re-created with the new
    type (its own when [type] is [undefined]) and attributes, keeping its
    content.  [None] stands for the RangeError raised when there is no node
    at [pos]. *)
Definition setNodeMarkup (doc : list Node) (pos : nat) (t : option NodeType)
    (given : Attrs) : option (list Node) :=
  match doc !! pos with
  | None => None
  | Some node =>
      let t' := default (type node) t in
      Some (<[pos := create t' given (content node)]> doc)
  end.

End PM.

(** ** The lightweight-markup (mdast) node exchanged with the markdown layer *)

Module Markdown.

Record Node := {
  type : string;
  lang : option string;
  value : string;
}.

End Markdown.

(** ** The markdown layer's builder states

    [ParserState] and [SerializerState] belong to the markdown extension
    ([../extensions/markdown]); the code-block extension only calls their
    methods. *)

Module ParserState.

(** Modelled from the spec: the parser state of the markdown extension,
    whose source is not part of the code under study.  Parsing "produces one
    editor document node carrying that language and text content": the state
    is a stack of open nodes, [openNode] opens a node of the given type and
    attributes, [addText] appends a text child to the open node (a document
    has no empty text nodes, so an empty string adds nothing), and
    [closeNode] creates the node and appends it to its parent. *)
Record Frame := {
  frame_type : PM.NodeType;
  frame_attrs : PM.Attrs;
  frame_content : list PM.Node;
}.

(** The stack of open nodes, innermost first. *)
Definition t := list Frame.

(** A parser action either fails (no open node) or returns a new stack. *)
Definition action := t → option t.

Definition andThen (a b : action) : action :=
  λ st, match a st with Some st' => b st' | None => None end.

Definition push_child (n : PM.Node) (f : Frame) : Frame :=
  {| frame_type := frame_type f;
     frame_attrs := frame_attrs f;
     frame_content := frame_content f ++ [n] |}.

(** Modelled from the spec: [ParserState.openNode], which opens a node. *)
Definition openNode (type : PM.NodeType) (attrs : PM.Attrs) : action :=
  λ st, Some ({| frame_type := type; frame_attrs := attrs; frame_content := [] |} :: st).

(** Modelled from the spec: [ParserState.addText], which gives the open node
    its text content. *)
Definition addText (value : string) : action :=
  λ st, match st with
        | top :: rest =>
            match value with
            | EmptyString => Some st
            | String _ _ => Some (push_child (PM.Text value) top :: rest)
            end
        | [] => None
        end.

(** Modelled from the spec: [ParserState.closeNode], which produces the
    document node. *)
Definition closeNode : action :=
  λ st, match st with
        | top :: parent :: rest =>
            let node := PM.create (frame_type top) (frame_attrs top) (frame_content top) in
            Some (push_child node parent :: rest)
        | _ => None
        end.

(** A fresh state: only the document root is open. *)
Definition init (doc_type : PM.NodeType) : t :=
  [{| frame_type := doc_type; frame_attrs := ∅; frame_content := [] |}].

(** The nodes built so far under the root, when every other node is closed. *)
Definition built (st : t) : option (list PM.Node) :=
  match st with
  | [root] => Some (frame_content root)
  | _ => None
  end.

End ParserState.

Module SerializerState.

(** Modelled from the spec: the serializer state of the markdown extension,
    whose source is not part of the code under study.  Serialization
    "produces an external code node": the state is the sequence of external
    nodes emitted so far and [addNode] appends one. *)
Definition t := list Markdown.Node.

(** Modelled from the spec: [SerializerState.addNode], which emits an
    external node. *)
Definition addNode (n : Markdown.Node) (st : t) : t := st ++ [n].

End SerializerState.

(** ** The editor, as far as the extension drives it *)

Module Editor.

(** A command issued through [editor.commands]. *)
Inductive Command :=
| InsertContent (value : string).

(** A transaction, identified by the document it leads to. *)
Record Transaction := {
  doc : list PM.Node;
}.

(** The cells of the editor the extension reads and writes:
    [editor.isEditable], the answer of [editor.isActive(name)], the document
    of [editor.view.state], the transactions handed to
    [editor.view.dispatch] and the commands run, both in order. *)
Record t := {
  isEditable : bool;
  isActive : string → bool;
  state_doc : list PM.Node;
  dispatched : list Transaction;
  commands : list Command;
}.

(** [editor.commands.insertContent(value)]: the command is recorded; how the
    host inserts the content at the selection is not the extension's code. *)
Definition insertContent (value : string) (e : t) : t :=
  {| isEditable := isEditable e;
     isActive := isActive e;
     state_doc := state_doc e;
     dispatched := dispatched e;
     commands := commands e ++ [InsertContent value] |}.

(** [editor.view.state.tr.setNodeMarkup(pos, type, attrs)]; [None] when the
    call throws. *)
Definition tr_setNodeMarkup (e : t) (pos : nat) (type : option PM.NodeType)
    (attrs : PM.Attrs) : option Transaction :=
  match PM.setNodeMarkup (state_doc e) pos type attrs with
  | Some d => Some {| doc := d |}
  | None => None
  end.

(** [editor.view.dispatch(tr)]: the transaction's document becomes the
    state's document. *)
Definition dispatch (tr : Transaction) (e : t) : t :=
  {| isEditable := isEditable e;
     isActive := isActive e;
     state_doc := doc tr;
     dispatched := dispatched e ++ [tr];
     commands := commands e |}.

(** A transaction made elsewhere (a command, an undo, a collaborator) is
    applied: the state takes its document. *)
Definition updateState (d : list PM.Node) (e : t) : t :=
  {| isEditable := isEditable e;
     isActive := isActive e;
     state_doc := d;
     dispatched := dispatched e;
     commands := commands e |}.

(** [editor.setEditable(b)] *)
Definition setEditable (b : bool) (e : t) : t :=
  {| isEditable := b;
     isActive := isActive e;
     state_doc := state_doc e;
     dispatched := dispatched e;
     commands := commands e |}.

End Editor.

Notation "a >>> b" := (ParserState.andThen a b) (at level 62, right associativity).

(** ** The code-block extension ([src/nodes/code-block.ts]) *)

Module CodeBlock.

(** What [this] gives the extension's methods: its name and the node type
    the schema built for it. *)
Record Extension := {
  name : string;
  type : PM.NodeType;
}.

(** [addAttributes]: the extension declares one attribute, [language], with
    default ["plaintext"]. *)
Definition addAttributes : PM.Attrs := {[ "language" := "plaintext" ]}.

(** The node type the schema builds for the extension: its own attributes
    on top of the attributes other extensions declare for every node. *)
Definition node_type (name : string) (global_attrs : PM.Attrs) : PM.NodeType :=
  {| PM.name := name; PM.attr_defaults := addAttributes ∪ global_attrs |}.

Definition extension (name : string) (global_attrs : PM.Attrs) : Extension :=
  {| name := name; type := node_type name global_attrs |}.

(** The object literal [{ language }]: a property holding [undefined] gives
    no value to the attribute. *)
Definition language_attrs (language : option string) : PM.Attrs :=
  match language with
  | Some l => {[ "language" := l ]}
  | None => ∅
  end.

(** *** [addStorage().parser] *)

Definition parser_match (node : Markdown.Node) : bool :=
  bool_decide (Markdown.type node = "code").

Definition parser_apply (node : Markdown.Node) (type : PM.NodeType) : ParserState.action :=
  let language := Markdown.lang node in
  let value := Markdown.value node in
  ParserState.openNode type (language_attrs language) >>>
  ParserState.addText value >>>
  ParserState.closeNode.

(** *** [addStorage().serializer] *)

Definition serializer_match (this : Extension) (node : PM.Node) : bool :=
  bool_decide (PM.name (PM.type node) = name this).

Definition serializer_apply (node : PM.Node) (state : SerializerState.t) : SerializerState.t :=
  SerializerState.addNode
    {| Markdown.type := "code";
       Markdown.value := js_or_empty (PM.firstChild_text node);
       Markdown.lang := PM.attrs_language node |}
    state.

(** Parsing one external node in a fresh state, then serializing every node
    that was built and that the serializer matches. *)
Definition parse (this : Extension) (doc_type : PM.NodeType) (node : Markdown.Node)
    : option (list PM.Node) :=
  if parser_match node
  then match parser_apply node (type this) (ParserState.init doc_type) with
       | Some st => ParserState.built st
       | None => None
       end
  else None.

Definition serialize (this : Extension) (nodes : list PM.Node) : SerializerState.t :=
  foldl (λ state node, if serializer_match this node then serializer_apply node state else state)
        [] nodes.

(** *** [addKeyboardShortcuts().Tab] *)

Definition Tab (this : Extension) (editor : Editor.t) : bool * Editor.t :=
  if Editor.isActive editor (name this)
  then (true, Editor.insertContent "  " editor)
  else (false, editor).

(** *** [addNodeView()] *)

(** The [getPos] argument of a node view renderer: a function giving the
    node's position in the current document, or a boolean. *)
Inductive GetPos :=
| GetPosFunction (getPos : Editor.t → nat)
| GetPosBoolean (b : bool).

(** The arguments the renderer is called with, bound once when the view is
    built: the listeners and the update hook close over them. *)
Record NodeViewProps := {
  node : PM.Node;
  getPos : GetPos;
}.

(** [this.options], as far as the view reads it: the names given by
    [lowlight.listLanguages()] and the dictionary of labels. *)
Record CodeBlockOptions := {
  listLanguages : list string;
  dictionary : gmap string string;
}.

(** The dictionary of [addOptions]. *)
Definition addOptions_dictionary : gmap string string :=
  list_to_map
    [("name", "CodeBlock"); ("copy", "Copy"); ("copied", "Copied!");
     ("arduino", "Arduino"); ("bash", "Bash"); ("c", "C"); ("cpp", "C++");
     ("csharp", "C#"); ("css", "CSS"); ("diff", "Diff"); ("go", "Go");
     ("graphql", "GraphQL"); ("ini", "INI"); ("java", "Java");
     ("javascript", "JavaScript"); ("json", "JSON"); ("kotlin", "Kotlin");
     ("less", "Less"); ("lua", "Lua"); ("makefile", "Makefile");
     ("markdown", "Markdown"); ("objectivec", "Objective-C"); ("perl", "Perl");
     ("php", "PHP"); ("php-template", "PHP Template"); ("plaintext", "Text");
     ("python", "Python"); ("python-repl", "Python Repl"); ("r", "R");
     ("ruby", "Ruby"); ("rust", "Rust"); ("scss", "Scss"); ("shell", "Shell");
     ("sql", "SQL"); ("swift", "Swift"); ("typescript", "TypeScript");
     ("vbnet", "Visual Basic .NET"); ("wasm", "WebAssembly"); ("xml", "XML");
     ("yaml", "YAML")].

(** The languages the dictionary of [addOptions] labels: the names the
    highlighter created by [createLowlight(common)] lists. *)
Definition common_languages : list string :=
  ["arduino"; "bash"; "c"; "cpp"; "csharp"; "css"; "diff"; "go"; "graphql"; "ini";
   "java"; "javascript"; "json"; "kotlin"; "less"; "lua"; "makefile"; "markdown";
   "objectivec"; "perl"; "php"; "php-template"; "plaintext"; "python"; "python-repl";
   "r"; "ruby"; "rust"; "scss"; "shell"; "sql"; "swift"; "typescript"; "vbnet";
   "wasm"; "xml"; "yaml"].

(** [addOptions()] *)
Definition addOptions : CodeBlockOptions :=
  {| listLanguages := common_languages; dictionary := addOptions_dictionary |}.

(** An <option> of the language control. *)
Record SelectOption := {
  option_value : string;
  option_textContent : string;
}.

(** The options the view gives the control: one for each listed language,
    its value the name and its text [dictionary[name] ?? name]. *)
Definition language_select_options (options : CodeBlockOptions) : list SelectOption :=
  (λ name, {| option_value := name;
              option_textContent := default name (dictionary options !! name) |})
    <$> listLanguages options.

(** The cells the view's listeners touch: the editor, the options of the
    <select> control and the value it reads ([language.value]), the strings
    written to the clipboard, whether the "copied" tooltip is shown, and the
    delays of the timers set. *)
Record NodeView := {
  editor : Editor.t;
  language_options : list SelectOption;
  language_value : string;
  clipboard : list string;
  copied_shown : bool;
  timers : list nat;
}.

(** The values of the control's options. *)
Definition option_values (v : NodeView) : list string :=
  option_value <$> language_options v.

(** The control shows the option with value [s]: [language.value] reads [s]. *)
Definition set_language_value (s : string) (v : NodeView) : NodeView :=
  {| editor := editor v;
     language_options := language_options v;
     language_value := s;
     clipboard := clipboard v;
     copied_shown := copied_shown v;
     timers := timers v |}.

(** What [select.value] reads after the assignment [select.value = s]: the
    option with that value is selected when there is one; otherwise no
    option is selected and the value reads as the empty string. *)
Definition select_value_after (values : list string) (s : string) : string :=
  if bool_decide (s ∈ values) then s else "".

(** The assignment [language.value = s]. *)
Definition assign_language_value (s : string) (v : NodeView) : NodeView :=
  set_language_value (select_value_after (option_values v) s) v.

Definition set_editor (e : Editor.t) (v : NodeView) : NodeView :=
  {| editor := e;
     language_options := language_options v;
     language_value := language_value v;
     clipboard := clipboard v;
     copied_shown := copied_shown v;
     timers := timers v |}.

(** Building the view: the control gets its options, then
    [language.value = node.attrs.language]. *)
Definition addNodeView (options : CodeBlockOptions) (props : NodeViewProps) (e : Editor.t)
    : NodeView :=
  assign_language_value (to_DOMString (PM.attrs_language (node props)))
    {| editor := e;
       language_options := language_select_options options;
       language_value := "";
       clipboard := [];
       copied_shown := false;
       timers := [] |}.

(** The listener of the control's "change" event.  A RangeError of
    [setNodeMarkup] escapes the listener before anything is dispatched. *)
Definition language_change (props : NodeViewProps) (v : NodeView) : NodeView :=
  if negb (Editor.isEditable (editor v))
  then assign_language_value (to_DOMString (PM.attrs_language (node props))) v
  else match getPos props with
       | GetPosFunction getPos =>
           match Editor.tr_setNodeMarkup (editor v) (getPos (editor v)) None
                   (<["language" := language_value v]> (PM.attrs (node props))) with
           | Some tr => set_editor (Editor.dispatch tr (editor v)) v
           | None => v
           end
       | GetPosBoolean _ => v
       end.

(** The user picks the option with value [value] in the control: the
    control takes the value and the "change" event fires. *)
Definition select_language (value : string) (props : NodeViewProps) (v : NodeView) : NodeView :=
  language_change props (set_language_value value v).

(** The listener of the copy button's "click" event, up to the clipboard
    write. *)
Definition copy_click (props : NodeViewProps) (v : NodeView) : NodeView :=
  {| editor := editor v;
     language_options := language_options v;
     language_value := language_value v;
     clipboard := clipboard v ++ [js_or_empty (PM.firstChild_text (node props))];
     copied_shown := copied_shown v;
     timers := timers v |}.

(** The continuation run when the clipboard write resolves:
    [instance.show()] and a timer of 1000 ms. *)
Definition copy_written (v : NodeView) : NodeView :=
  {| editor := editor v;
     language_options := language_options v;
     language_value := language_value v;
     clipboard := clipboard v;
     copied_shown := true;
     timers := timers v ++ [1000] |}.

(** The timer's callback: [instance.hide()]. *)
Definition copy_timeout (v : NodeView) : NodeView :=
  {| editor := editor v;
     language_options := language_options v;
     language_value := language_value v;
     clipboard := clipboard v;
     copied_shown := false;
     timers := timers v |}.

(** The view's [update] hook. *)
Definition update (this : Extension) (updatedNode : PM.Node) (v : NodeView) : bool * NodeView :=
  if bool_decide (PM.type updatedNode ≠ type this)
  then (false, v)
  else (true, assign_language_value (to_DOMString (PM.attrs_language updatedNode)) v).

(** The update hook called with the nodes of a list, one after the other. *)
Definition update_all (this : Extension) (nodes : list PM.Node) (v : NodeView) : NodeView :=
  foldl (λ v updatedNode, snd (update this updatedNode v)) v nodes.

(** Selecting the languages of a list in the control, one after the other. *)
Definition select_all (values : list string) (props : NodeViewProps)
    (v : NodeView) : NodeView :=
  foldl (λ v value, select_language value props v) v values.

(** A code block with the text "x=1" at position 0 of an editable editor,
    and a view built for it. *)
Definition python_block : PM.Node :=
  PM.create (node_type "codeBlock" ∅) {[ "language" := "python" ]} [PM.Text "x=1"].

Definition python_editor (editable : bool) : Editor.t :=
  {| Editor.isEditable := editable; Editor.isActive := λ _, true;
     Editor.state_doc := [python_block]; Editor.dispatched := []; Editor.commands := [] |}.

Definition python_view (editable : bool) (pos : nat) : NodeViewProps * NodeView :=
  let props := {| node := python_block;
                  getPos := GetPosFunction (λ _, pos) |} in
  (props, addNodeView addOptions props (python_editor editable)).

End CodeBlock.

(** ** The float menu view ([FloatMenuView]) *)

Module FloatMenu.

(** A JavaScript number, as [Math.min] and [Math.max] of positions give it:
    both are infinite on an empty argument list. *)
Inductive number :=
| NegInfinity
| Finite (n : nat)
| Infinity.

Definition Math_min (xs : list nat) : number :=
  match xs with
  | [] => Infinity
  | x :: xs' => Finite (foldr Nat.min x xs')
  end.

Definition Math_max (xs : list nat) : number :=
  match xs with
  | [] => NegInfinity
  | x :: xs' => Finite (foldr Nat.max x xs')
  end.

(** [Range]: [{ from, to }] *)
Record Range := {
  from : number;
  to : number;
}.

(** A selection range, by the positions [$from.pos] and [$to.pos]. *)
Record SelectionRange := {
  from_pos : nat;
  to_pos : nat;
}.

(** What the view takes from the host framework and from the DOM.  The
    comparisons [doc.eq] and [selection.eq] are the framework's; so are the
    ranges of a selection, the test [isNodeSelection], the DOM node of a
    position ([null] when there is none) and the rectangle of a position
    range. *)
Class Host := {
  Doc : Type;
  doc_eq : Doc → Doc → bool;
  Selection : Type;
  selection_eq : Selection → Selection → bool;
  ranges : Selection → list SelectionRange;
  isNodeSelection : Selection → bool;
  HTMLElement : Type;
  DOMRect : Type;
  EditorDOM : Type;
  nodeDOM : EditorDOM → number → option HTMLElement;
  getBoundingClientRect : HTMLElement → DOMRect;
  posToDOMRect : EditorDOM → number → number → DOMRect;
}.

Section View.
Context `{Host}.

Record EditorState := {
  doc : Doc;
  selection : Selection;
}.

(** [EditorView]: its state, whether an input composition is going on, and
    the DOM it has rendered. *)
Record EditorView := {
  state : EditorState;
  composing : bool;
  dom : EditorDOM;
}.

Record Editor := {
  view : EditorView;
}.

(** The context object built by [_createProps].  Besides [range] it holds
    references to the editor and to the view itself (and the bound [show]
    and [hide]); a callback reaches the editor through the reference, so the
    model hands the editor to it next to the range. *)
Record Props := {
  range : Range;
}.

(** What the configured callbacks are, as far as the view can tell: the
    anchor function and the predicate by their results, [onUpdate] by its
    presence. *)
Record FloatMenuViewOptions := {
  rect : option (Editor → Props → DOMRect);
  show : option (Editor → Props → bool);
  onUpdate : bool;
}.

(** The popover engine: shown or hidden, and the anchor function last set
    through [setProps], which the engine calls on the editor of that
    moment. *)
Record Instance := {
  visible : bool;
  getReferenceClientRect : option (Editor → DOMRect);
}.

(** A call leaving the view: of a configured callback, with its argument,
    or of a method of the popover engine. *)
Inductive Call :=
| call_show (props : Props)
| call_onUpdate (props : Props) (element : HTMLElement)
| popover_hide
| popover_setProps
| popover_show.

(** [this]: the fields of the view, and the calls it has made, in order. *)
Record FloatMenuView := {
  editor : Editor;
  popover : Instance;
  element : HTMLElement;
  options : FloatMenuViewOptions;
  calls : list Call;
}.

Definition with_popover (p : Instance) (c : Call) (this : FloatMenuView) : FloatMenuView :=
  {| editor := editor this;
     popover := p;
     element := element this;
     options := options this;
     calls := calls this ++ [c] |}.

Definition with_call (c : Call) (this : FloatMenuView) : FloatMenuView :=
  with_popover (popover this) c this.

(** [this.show()]: [this.popover.show()] *)
Definition do_show (this : FloatMenuView) : FloatMenuView :=
  with_popover
    {| visible := true;
       getReferenceClientRect := getReferenceClientRect (popover this) |}
    popover_show this.

(** [this.hide()]: [this.popover.hide()] *)
Definition do_hide (this : FloatMenuView) : FloatMenuView :=
  with_popover
    {| visible := false;
       getReferenceClientRect := getReferenceClientRect (popover this) |}
    popover_hide this.

(** [this.popover.setProps({ getReferenceClientRect })] *)
Definition setProps (f : Editor → DOMRect) (this : FloatMenuView) : FloatMenuView :=
  with_popover
    {| visible := visible (popover this);
       getReferenceClientRect := Some f |}
    popover_setProps this.

(** The editor the view refers to has moved on: [this.editor] now reads the
    new state. *)
Definition with_editor (e : Editor) (this : FloatMenuView) : FloatMenuView :=
  {| editor := e;
     popover := popover this;
     element := element this;
     options := options this;
     calls := calls this |}.

(** [_createProps] *)
Definition _createProps (this : FloatMenuView) : Props :=
  let ranges := ranges (selection (state (view (editor this)))) in
  let from := Math_min (map from_pos ranges) in
  let to := Math_max (map to_pos ranges) in
  {| range := {| from := from; to := to |} |}.

(** [_createRect] *)
Definition _createRect (this : FloatMenuView) : Editor → Props → DOMRect :=
  match rect (options this) with
  | Some rect => rect
  | None =>
      λ editor props,
        let view := view editor in
        let state := state view in
        if isNodeSelection (selection state)
        then match nodeDOM (dom view) (from (range props)) with
             | Some node => getBoundingClientRect node
             | None => posToDOMRect (dom view) (from (range props)) (to (range props))
             end
        else posToDOMRect (dom view) (from (range props)) (to (range props))
  end.

(** [this.options.show?.(props)]: [undefined] without a predicate. *)
Definition options_show (props : Props) (this : FloatMenuView) : option bool * FloatMenuView :=
  match show (options this) with
  | Some show => (Some (show (editor this) props), with_call (call_show props) this)
  | None => (None, this)
  end.

(** [!v] on the predicate's answer *)
Definition js_not (v : option bool) : bool :=
  match v with
  | Some b => negb b
  | None => true
  end.

(** The condition under which [update] skips the render. *)
Definition skip_render (view : EditorView) (oldState : option EditorState) : bool :=
  let state := state view in
  composing view ||
  match oldState with
  | Some oldState =>
      doc_eq (doc oldState) (doc state) && selection_eq (selection oldState) (selection state)
  | None => false
  end.

(** [update], after the skip test. *)
Definition render (this : FloatMenuView) : FloatMenuView :=
  let props := _createProps this in
  let '(shown, this) := options_show props this in
  if js_not shown
  then do_hide this
  else
    let this :=
      if onUpdate (options this)
      then with_call (call_onUpdate props (element this)) this
      else this in
    let this := setProps (λ editor, _createRect this editor props) this in
    do_show this.

(** [update(view, oldState)] *)
Definition update (this : FloatMenuView) (view : EditorView) (oldState : option EditorState)
    : FloatMenuView :=
  if skip_render view oldState then this else render this.

(** The ranges of the selection the view's editor has. *)
Definition selection_ranges (this : FloatMenuView) : list SelectionRange :=
  ranges (selection (state (view (editor this)))).

End View.

#[global] Instance SelectionRange_eq_dec : EqDecision SelectionRange.
Proof. solve_decision. Defined.

(** A small host for running the view: a document is its text, a selection
    is its list of ranges and is never a node selection, and the rectangle
    of a position range is the pair of its ends. *)
Definition text_host : Host :=
  {| Doc := string;
     doc_eq := String.eqb;
     Selection := list SelectionRange;
     selection_eq := λ a b, bool_decide (a = b);
     ranges := λ s, s;
     isNodeSelection := λ _, false;
     HTMLElement := string;
     DOMRect := number * number;
     EditorDOM := unit;
     nodeDOM := λ _ _, None;
     getBoundingClientRect := λ _, (Finite 0, Finite 0);
     posToDOMRect := λ _ a b, (a, b) |}.

Section TextHost.
#[local] Existing Instance text_host.

(** A view over the text "abc" with the selection 1..3, its popover hidden. *)
Definition abc_state : EditorState :=
  {| doc := "abc";
     selection := [{| from_pos := 1; to_pos := 3 |}] |}.

Definition abc_view (composing : bool) : EditorView :=
  {| state := abc_state; composing := composing; dom := tt |}.

Definition abc_menu (show : option bool) : FloatMenuView :=
  {| editor := {| view := abc_view false |};
     popover := {| visible := false; getReferenceClientRect := None |};
     element := "div.tiptap-fm";
     options :=
       {| rect := None;
          show := (λ b _ _, b) <$> show;
          onUpdate := true |};
     calls := [] |}.

(** A menu over a selection of two ranges, 4..9 and 2..5, with an anchor
    already set. *)
Definition two_range_menu (show : bool) : FloatMenuView :=
  {| editor :=
       {| view :=
            {| state :=
                 {| doc := "0123456789";
                    selection :=
                      [{| from_pos := 4; to_pos := 9 |};
                       {| from_pos := 2; to_pos := 5 |}] |};
               composing := false;
               dom := tt |} |};
     popover :=
       {| visible := true;
          getReferenceClientRect :=
            Some (λ _, (Finite 0, Finite 0)) |};
     element := "div.tiptap-fm";
     options :=
       {| rect := None;
          show := Some (λ _ _, show);
          onUpdate := false |};
     calls := [] |}.

End TextHost.

End FloatMenu.

(** ** The DOM elements the control factories build *)

Module DOM.

(** An element, by what the factories do to it: its tag, its class list,
    the string properties assigned to it, its content, and the types of the
    events it listens to.  The content is kept as it was given, in order: a
    piece of markup written through [innerHTML], which the browser parses
    into nodes of its own, or an element handed to [append]. *)
Inductive Element :=
| mkElement (tagName : string) (classList : list string) (props : gmap string string)
    (content : list Content) (listeners : list string)
with Content :=
| Markup (markup : string)
| Child (child : Element).

Definition tagName (e : Element) : string :=
  match e with mkElement t _ _ _ _ => t end.

Definition classList (e : Element) : list string :=
  match e with mkElement _ c _ _ _ => c end.

Definition props (e : Element) : gmap string string :=
  match e with mkElement _ _ p _ _ => p end.

Definition content (e : Element) : list Content :=
  match e with mkElement _ _ _ c _ => c end.

Definition listeners (e : Element) : list string :=
  match e with mkElement _ _ _ _ l => l end.

(** [document.createElement(tag)] *)
Definition createElement (tag : string) : Element := mkElement tag [] ∅ [] [].

(** [e.classList.add(c)]: a class list holds a token once. *)
Definition classList_add (c : string) (e : Element) : Element :=
  match e with
  | mkElement t cl p k l =>
      mkElement t (if bool_decide (c ∈ cl) then cl else cl ++ [c]) p k l
  end.

(** [e.key = v] for a string property. *)
Definition set (key v : string) (e : Element) : Element :=
  match e with mkElement t cl p k l => mkElement t cl (<[key := v]> p) k l end.

(** [e.key]: a string property never assigned reads as the empty string. *)
Definition get (key : string) (e : Element) : string := default "" (props e !! key).




(** [e.addEventListener(type, ...)] *)
Definition addEventListener (type : string) (e : Element) : Element :=
  match e with mkElement t cl p k l => mkElement t cl p k (l ++ [type]) end.


End DOM.

(** ** [FloatMenuView.createInput] *)

Module FloatMenuInput.

(** [FloatMenuInputViewOptions]; the callbacks by their presence. *)
Record Options := {
  id : option string;
  name : string;
  type : option string;
  value : option string;
  onEnter : bool;
  onChange : bool;
}.

(** [createInput(options)]: the <input> element returned. *)
Definition createInput (options : Options) : DOM.Element :=
  let input := DOM.createElement "input" in
  let input := DOM.classList_add "tiptap-fm-input" input in
  let input :=
    match id options with
    | Some (String c s) => DOM.set "name" (String c s) input
    | _ => input
    end in
  let input :=
    match type options with
    | Some (String c s) => DOM.set "type" (String c s) input
    | _ => input
    end in
  let input :=
    match value options with
    | Some (String c s) => DOM.set "value" (String c s) input
    | _ => input
    end in
  let input :=
    match name options with
    | String c s => DOM.set "placeholder" (String c s) input
    | EmptyString => input
    end in
  let input := if onEnter options then DOM.addEventListener "keydown" input else input in
  let input := if onChange options then DOM.addEventListener "change" input else input in
  input.

(** An event reaching the input. *)
Inductive Event :=
| KeyDown (key : string)
| Change.

Definition event_type (e : Event) : string :=
  match e with KeyDown _ => "keydown" | Change => "change" end.

(** A callback of the options called with the input's value. *)
Inductive Call :=
| call_onEnter (value : string)
| call_onChange (value : string).

(** The listener [createInput] adds for an event type: the "keydown"
    listener calls [onEnter] with [input.value] when the key is "Enter", the
    "change" listener calls [onChange] with [input.value]. *)
Definition listener (input : DOM.Element) (e : Event) : list Call :=
  match e with
  | KeyDown key =>
      if bool_decide (key = "Enter") then [call_onEnter (DOM.get "value" input)] else []
  | Change => [call_onChange (DOM.get "value" input)]
  end.

(** The event is dispatched on the input: each listener added for its type
    runs. *)
Definition dispatchEvent (e : Event) (input : DOM.Element) : list Call :=
  flat_map (λ type, if bool_decide (type = event_type e) then listener input e else [])
    (DOM.listeners input).

End FloatMenuInput.

(** ** [FloatMenuView.createButton] *)

Module FloatMenuButton.

(** An icon value: markup or an element. *)
Inductive IconValue :=
| IconMarkup (markup : string)
| IconElement (e : DOM.Element).

(** [icon]: a value, or a function giving one. *)
Inductive Icon :=
| IconOf (v : IconValue)
| IconFunction (f : unit → IconValue).

(** [FloatMenuButtonViewOptions]; [onClick] by its presence. *)
Record Options := {
  id : option string;
  name : string;
  icon : Icon;
  shortcut : option string;
  onClick : bool;
}.










End FloatMenuButton.

(** * Properties *)

(** ** Vocabulary of the specification *)

(** The text of a node's first text child, if it has one. *)
Definition first_text_child (n : PM.Node) : option string :=
  head (omap PM.text (PM.content n)).

(** The schema gives a code block the content expression [text*]: all its
    children are text nodes. *)
Definition text_content (n : PM.Node) : Prop :=
  Forall (λ child, PM.isText child = true) (PM.content n).

(** The external code node [{type: "code", lang, value}]. *)
Definition code_node (lang : option string) (value : string) : Markdown.Node :=
  {| Markdown.type := "code"; Markdown.lang := lang; Markdown.value := value |}.

(** Two literal space characters. *)
Definition two_spaces : string := String (Ascii.ascii_of_nat 32) (String (Ascii.ascii_of_nat 32) EmptyString).

(** ** Attribute computation *)

Lemma computeAttrs_lookup (defaults given : PM.Attrs) (k : string) :
  PM.computeAttrs defaults given !! k = (λ d, default d (given !! k)) <$> (defaults !! k).
Proof.
  unfold PM.computeAttrs. rewrite map_lookup_imap.
  destruct (defaults !! k); reflexivity.
Qed.

Lemma node_type_declares_language (name : string) (global_attrs : PM.Attrs) :
  PM.attr_defaults (CodeBlock.node_type name global_attrs) !! "language" = Some "plaintext".
Proof.
  simpl. apply lookup_union_Some_l. unfold CodeBlock.addAttributes.
  apply lookup_singleton_eq.
Qed.

Lemma create_language (name : string) (global_attrs given : PM.Attrs) (l : string)
    (c : list PM.Node) :
  given !! "language" = Some l →
  PM.attrs_language (PM.create (CodeBlock.node_type name global_attrs) given c) = Some l.
Proof.
  intros Hl. unfold PM.attrs_language, PM.create. cbn [PM.attrs].
  rewrite computeAttrs_lookup, node_type_declares_language. cbn. by rewrite Hl.
Qed.

(** A node created without a language carries the plaintext default. *)
Lemma create_language_default (name : string) (global_attrs given : PM.Attrs)
    (c : list PM.Node) :
  given !! "language" = None →
  PM.attrs_language (PM.create (CodeBlock.node_type name global_attrs) given c)
  = Some "plaintext".
Proof.
  intros Hl. unfold PM.attrs_language, PM.create. cbn [PM.attrs].
  rewrite computeAttrs_lookup, node_type_declares_language. cbn. by rewrite Hl.
Qed.

Lemma js_or_empty_Some (s : string) : js_or_empty (Some s) = s.
Proof. by destruct s. Qed.

(** ** Parsing and serialization *)

(** What the parser builds from a code node: one node of the extension's
    type, with the language and, unless the text is empty, one text child. *)
Lemma parse_code_node (name : string) (global_attrs : PM.Attrs) (doc_type : PM.NodeType)
    (lang text : string) :
  CodeBlock.parse (CodeBlock.extension name global_attrs) doc_type (code_node (Some lang) text)
  = Some [PM.create (CodeBlock.node_type name global_attrs) {[ "language" := lang ]}
            (match text with EmptyString => [] | String _ _ => [PM.Text text] end)].
Proof.
  unfold CodeBlock.parse, CodeBlock.parser_match, CodeBlock.parser_apply.
  cbn [code_node Markdown.type Markdown.lang Markdown.value].
  rewrite bool_decide_eq_true_2 by reflexivity.
  destruct text; reflexivity.
Qed.

(** C1: for every pair (lang, text), parsing the external code node
    [{type: "code", lang, value: text}] and serializing the node that was
    built yields one external code node with the same lang and the same
    text. *)
Theorem parse_serialize_roundtrip (name : string) (global_attrs : PM.Attrs)
    (doc_type : PM.NodeType) (lang text : string) :
  CodeBlock.serialize (CodeBlock.extension name global_attrs)
    <$> CodeBlock.parse (CodeBlock.extension name global_attrs) doc_type
          (code_node (Some lang) text)
  = Some [code_node (Some lang) text].
Proof.
  rewrite parse_code_node. cbn [fmap option_fmap option_map].
  f_equal. unfold CodeBlock.serialize. cbn [foldl].
  unfold CodeBlock.serializer_match. cbn [PM.create PM.type CodeBlock.extension CodeBlock.name
    CodeBlock.node_type PM.name].
  rewrite bool_decide_eq_true_2 by reflexivity.
  unfold CodeBlock.serializer_apply, SerializerState.addNode, code_node. cbn [app].
  f_equal. f_equal.
  - fold (PM.create (CodeBlock.node_type name global_attrs) {[ "language" := lang ]}
            (match text with EmptyString => [] | String _ _ => [PM.Text text] end)).
    apply create_language. apply lookup_singleton_eq.
  - destruct text; reflexivity.
Qed.

(** C9: serializing a node of the code-block type emits one external code
    node whose lang is the node's language attribute and whose value is the
    text of the node's first text child, or the empty string when it has
    none. *)
Theorem serializer_apply_output (this : CodeBlock.Extension) (node : PM.Node)
    (state : SerializerState.t) :
  CodeBlock.serializer_match this node = true →
  text_content node →
  CodeBlock.serializer_apply node state
  = state ++ [code_node (PM.attrs node !! "language") (default "" (first_text_child node))].
Proof.
  intros _ Htext. unfold CodeBlock.serializer_apply, SerializerState.addNode, code_node.
  f_equal. f_equal. f_equal.
  unfold PM.firstChild_text, PM.firstChild, first_text_child, text_content in *.
  destruct (PM.content node) as [|child rest]; [reflexivity|].
  apply Forall_cons_1 in Htext as [Hchild _].
  destruct child as [s|]; [|discriminate].
  cbn. apply js_or_empty_Some.
Qed.

Lemma serializer_apply_output_witness :
  let this := CodeBlock.extension "codeBlock" ∅ in
  let node := PM.create (CodeBlock.type this) {[ "language" := "python" ]} [PM.Text "x=1"] in
  CodeBlock.serializer_match this node = true ∧
  text_content node ∧
  CodeBlock.serializer_apply node [] = [code_node (Some "python") "x=1"].
Proof.
  intros this node.
  assert (Hmatch : CodeBlock.serializer_match this node = true) by reflexivity.
  assert (Htext : text_content node) by (repeat constructor).
  split; [exact Hmatch|]. split; [exact Htext|].
  rewrite (serializer_apply_output this node [] Hmatch Htext).
  vm_compute. reflexivity.
Defined.

(** ** The node view's update hook *)

(** C2, as the code has it: the update hook returns false exactly when the
    updated node's type differs from the extension's type; for an updated
    node of that type it assigns the node's language attribute to the
    control and returns true.  The control then reads the node's language
    when that language is the value of one of its options, and reads empty,
    no option being selected, when it is not. *)
Theorem update_hook (this : CodeBlock.Extension) (updatedNode : PM.Node)
    (v : CodeBlock.NodeView) :
  (fst (CodeBlock.update this updatedNode v) = false
   ↔ PM.type updatedNode ≠ CodeBlock.type this) ∧
  (PM.type updatedNode = CodeBlock.type this →
   CodeBlock.update this updatedNode v
   = (true, CodeBlock.assign_language_value (to_DOMString (PM.attrs_language updatedNode)) v) ∧
   ∀ l, PM.attrs_language updatedNode = Some l →
        (l ∈ CodeBlock.option_values v →
         CodeBlock.language_value (snd (CodeBlock.update this updatedNode v)) = l) ∧
        (l ∉ CodeBlock.option_values v →
         CodeBlock.language_value (snd (CodeBlock.update this updatedNode v)) = "")).
Proof.
  unfold CodeBlock.update. split.
  - case_bool_decide as Hty; cbn [fst]; split; intros Hx; try done.
  - intros Hty. rewrite bool_decide_eq_false_2 by (intros Hne; by apply Hne).
    split; [reflexivity|]. intros l Hl. rewrite Hl.
    cbn [snd to_DOMString CodeBlock.assign_language_value CodeBlock.set_language_value
         CodeBlock.language_value].
    unfold CodeBlock.select_value_after. split; intros Hin.
    + by rewrite bool_decide_eq_true_2.
    + by rewrite bool_decide_eq_false_2.
Qed.

Lemma update_hook_witness :
  let this := CodeBlock.extension "codeBlock" ∅ in
  let n0 := PM.create (CodeBlock.type this) ∅ [] in
  let n1 := PM.create (CodeBlock.type this) {[ "language" := "rust" ]} [] in
  let e := {| Editor.isEditable := true; Editor.isActive := λ _, true;
              Editor.state_doc := [n1]; Editor.dispatched := []; Editor.commands := [] |} in
  let v := CodeBlock.addNodeView CodeBlock.addOptions
             {| CodeBlock.node := n0; CodeBlock.getPos := CodeBlock.GetPosFunction (λ _, 0) |} e in
  PM.type n1 = CodeBlock.type this ∧
  "rust" ∈ CodeBlock.option_values v ∧
  fst (CodeBlock.update this n1 v) = true ∧
  CodeBlock.language_value (snd (CodeBlock.update this n1 v)) = "rust".
Proof.
  intros this n0 n1 e v.
  assert (Hty : PM.type n1 = CodeBlock.type this) by reflexivity.
  assert (Hin : "rust" ∈ CodeBlock.option_values v).
  { apply list_elem_of_In. vm_compute. tauto. }
  destruct (update_hook this n1 v) as [_ Hsame].
  destruct (Hsame Hty) as [Hupd Hlang].
  split; [exact Hty|]. split; [exact Hin|]. split.
  - rewrite Hupd. reflexivity.
  - apply (Hlang "rust"); [vm_compute; reflexivity | exact Hin].
Defined.

(** C2 fails as stated: a view over the languages of [addOptions] is handed
    a node of the extension's type whose language is "js", which is not the
    value of any option.  The update is accepted, and the control reads the
    empty string, not the node's language. *)
Lemma update_hook_unlisted_language :
  let this := CodeBlock.extension "codeBlock" ∅ in
  let n0 := PM.create (CodeBlock.type this) ∅ [] in
  let n1 := PM.create (CodeBlock.type this) {[ "language" := "js" ]} [] in
  let e := {| Editor.isEditable := true; Editor.isActive := λ _, true;
              Editor.state_doc := [n1]; Editor.dispatched := []; Editor.commands := [] |} in
  let v := CodeBlock.addNodeView CodeBlock.addOptions
             {| CodeBlock.node := n0; CodeBlock.getPos := CodeBlock.GetPosFunction (λ _, 0) |} e in
  PM.type n1 = CodeBlock.type this ∧
  PM.attrs_language n1 = Some "js" ∧
  fst (CodeBlock.update this n1 v) = true ∧
  CodeBlock.language_value (snd (CodeBlock.update this n1 v)) = "" ∧
  CodeBlock.language_value (snd (CodeBlock.update this n1 v)) ≠ "js".
Proof. cbv zeta. repeat split; try (vm_compute; reflexivity). vm_compute. discriminate. Qed.

(** ** The keyboard shortcut *)

(** C7: when the code-block node is active the Tab handler runs one
    command, the insertion of exactly two space characters, and returns true;
    when it is not active the handler returns false and leaves the editor as
    it was. *)
Theorem Tab_shortcut (this : CodeBlock.Extension) (editor : Editor.t) :
  (Editor.isActive editor (CodeBlock.name this) = true →
   CodeBlock.Tab this editor = (true, Editor.insertContent two_spaces editor) ∧
   Editor.commands (snd (CodeBlock.Tab this editor))
   = Editor.commands editor ++ [Editor.InsertContent two_spaces] ∧
   String.length two_spaces = 2) ∧
  (Editor.isActive editor (CodeBlock.name this) = false →
   CodeBlock.Tab this editor = (false, editor)).
Proof.
  unfold CodeBlock.Tab. split; intros Hactive; rewrite Hactive.
  - repeat split.
  - reflexivity.
Qed.

Lemma Tab_shortcut_witness :
  let this := CodeBlock.extension "codeBlock" ∅ in
  let inside := {| Editor.isEditable := true; Editor.isActive := λ n, bool_decide (n = "codeBlock");
                   Editor.state_doc := []; Editor.dispatched := []; Editor.commands := [] |} in
  let outside := {| Editor.isEditable := true; Editor.isActive := λ n, bool_decide (n = "paragraph");
                    Editor.state_doc := []; Editor.dispatched := []; Editor.commands := [] |} in
  fst (CodeBlock.Tab this inside) = true ∧
  Editor.commands (snd (CodeBlock.Tab this inside)) = [Editor.InsertContent "  "] ∧
  CodeBlock.Tab this outside = (false, outside).
Proof.
  intros this inside outside.
  destruct (Tab_shortcut this inside) as [Hin _].
  destruct (Hin eq_refl) as (Htab & Hcmd & _).
  destruct (Tab_shortcut this outside) as [_ Hout].
  split; [by rewrite Htab|]. split; [exact Hcmd|]. exact (Hout eq_refl).
Defined.

(** ** The language control *)

(** In a read-only editor the listener dispatches nothing and assigns the
    language of the node the view was built with to the control. *)
Lemma language_change_read_only (props : CodeBlock.NodeViewProps) (v : CodeBlock.NodeView) :
  Editor.isEditable (CodeBlock.editor v) = false →
  CodeBlock.language_change props v
  = CodeBlock.assign_language_value
      (to_DOMString (PM.attrs_language (CodeBlock.node props))) v.
Proof. intros Hro. unfold CodeBlock.language_change. by rewrite Hro. Qed.

(** The attributes handed to [setNodeMarkup] are those of the node the view
    was built with, with [language] replaced. *)
Lemma language_change_editable (props : CodeBlock.NodeViewProps) (v : CodeBlock.NodeView)
    (f : Editor.t → nat) (cur : PM.Node) :
  Editor.isEditable (CodeBlock.editor v) = true →
  CodeBlock.getPos props = CodeBlock.GetPosFunction f →
  Editor.state_doc (CodeBlock.editor v) !! f (CodeBlock.editor v) = Some cur →
  CodeBlock.language_change props v
  = CodeBlock.set_editor
      (Editor.dispatch
         {| Editor.doc :=
              <[f (CodeBlock.editor v) :=
                  PM.create (PM.type cur)
                    (<["language" := CodeBlock.language_value v]> (PM.attrs (CodeBlock.node props)))
                    (PM.content cur)]> (Editor.state_doc (CodeBlock.editor v)) |}
         (CodeBlock.editor v))
      v.
Proof.
  intros Hed Hpos Hcur. unfold CodeBlock.language_change.
  rewrite Hed, Hpos. cbn [negb].
  unfold Editor.tr_setNodeMarkup, PM.setNodeMarkup. rewrite Hcur. reflexivity.
Qed.

(** In an editable editor, for a view whose [getPos] is a function giving the
    position of a node of the code-block type, selecting a language
    dispatches exactly one transaction; it replaces the node at that
    position, and nothing else in the document, by a node of the same type
    and content whose language is the selected value. *)
Theorem select_language_editable (name : string) (global_attrs : PM.Attrs)
    (props : CodeBlock.NodeViewProps) (v : CodeBlock.NodeView) (value : string)
    (f : Editor.t → nat) (cur : PM.Node) :
  Editor.isEditable (CodeBlock.editor v) = true →
  CodeBlock.getPos props = CodeBlock.GetPosFunction f →
  Editor.state_doc (CodeBlock.editor v) !! f (CodeBlock.editor v) = Some cur →
  PM.type cur = CodeBlock.node_type name global_attrs →
  let after := CodeBlock.editor (CodeBlock.select_language value props v) in
  ∃ new,
    Editor.dispatched after
    = Editor.dispatched (CodeBlock.editor v) ++ [{| Editor.doc := Editor.state_doc after |}] ∧
    Editor.state_doc after = <[f (CodeBlock.editor v) := new]> (Editor.state_doc (CodeBlock.editor v)) ∧
    Editor.state_doc after !! f (CodeBlock.editor v) = Some new ∧
    PM.attrs_language new = Some value ∧
    PM.type new = PM.type cur ∧
    PM.content new = PM.content cur.
Proof.
  intros Hed Hpos Hcur Hty after. subst after. unfold CodeBlock.select_language.
  rewrite (language_change_editable props (CodeBlock.set_language_value value v) f cur Hed Hpos Hcur).
  cbn [CodeBlock.set_language_value CodeBlock.set_editor CodeBlock.editor CodeBlock.language_value
       Editor.dispatch Editor.state_doc Editor.dispatched Editor.doc].
  eexists. split; [reflexivity|]. split; [reflexivity|]. split.
  - apply list_lookup_insert_eq. by eapply lookup_lt_Some.
  - split; [|split; reflexivity].
    rewrite Hty. apply create_language. apply lookup_insert_eq.
Qed.

Lemma select_language_editable_witness :
  let this := CodeBlock.extension "codeBlock" ∅ in
  let n0 := PM.create (CodeBlock.type this) ∅ [PM.Text "x=1"] in
  let e := {| Editor.isEditable := true; Editor.isActive := λ _, true;
              Editor.state_doc := [n0]; Editor.dispatched := []; Editor.commands := [] |} in
  let props := {| CodeBlock.node := n0; CodeBlock.getPos := CodeBlock.GetPosFunction (λ _, 0) |} in
  let after := CodeBlock.editor (CodeBlock.select_language "python" props (CodeBlock.addNodeView CodeBlock.addOptions props e)) in
  ∃ new,
    length (Editor.dispatched after) = 1 ∧
    Editor.state_doc after !! 0 = Some new ∧
    PM.attrs_language new = Some "python" ∧
    PM.content new = [PM.Text "x=1"].
Proof.
  intros this n0 e props after.
  destruct (select_language_editable "codeBlock" ∅ props (CodeBlock.addNodeView CodeBlock.addOptions props e)
              "python" (λ _, 0) n0 eq_refl eq_refl eq_refl eq_refl)
    as (new & Hdisp & _ & Hlook & Hlang & _ & Hcontent).
  exists new. split; [|split; [|split]].
  - subst after. rewrite Hdisp. reflexivity.
  - exact Hlook.
  - exact Hlang.
  - exact Hcontent.
Defined.

(** C6, evaluated where it fails: every node carries an attribute "id"
    declared by another extension.  A view is built for a code block whose
    id is "a"; a transaction made elsewhere sets the id to "b" and the
    update hook accepts the new node; in the editable editor the user then
    picks "python".  One transaction is dispatched and the node's language
    becomes "python", but the attributes handed to [setNodeMarkup] are those
    of the node the view was built with: the node's id, "b" before the
    selection, is "a" after it. *)
Theorem select_language_reverts_other_attributes :
  let this := CodeBlock.extension "codeBlock" {[ "id" := "" ]} in
  let n0 := PM.create (CodeBlock.type this) {[ "id" := "a" ]} [PM.Text "x=1"] in
  let n1 := PM.create (CodeBlock.type this) {[ "id" := "b" ]} [PM.Text "x=1"] in
  let e := {| Editor.isEditable := true; Editor.isActive := λ _, true;
              Editor.state_doc := [n0]; Editor.dispatched := []; Editor.commands := [] |} in
  let props := {| CodeBlock.node := n0; CodeBlock.getPos := CodeBlock.GetPosFunction (λ _, 0) |} in
  let v0 := CodeBlock.set_editor (Editor.updateState [n1] e)
              (CodeBlock.addNodeView CodeBlock.addOptions props e) in
  let v1 := snd (CodeBlock.update this n1 v0) in
  let before := CodeBlock.editor v1 in
  let after := CodeBlock.editor (CodeBlock.select_language "python" props v1) in
  fst (CodeBlock.update this n1 v0) = true ∧
  (λ n, PM.attrs n !! "id") <$> Editor.state_doc before !! 0 = Some (Some "b") ∧
  length (Editor.dispatched after) = S (length (Editor.dispatched before)) ∧
  PM.attrs_language <$> Editor.state_doc after !! 0 = Some (Some "python") ∧
  PM.content <$> Editor.state_doc after !! 0 = Some [PM.Text "x=1"] ∧
  (λ n, PM.attrs n !! "id") <$> Editor.state_doc after !! 0 = Some (Some "a").
Proof. cbv zeta. repeat split; vm_compute; reflexivity. Qed.

(** C5, evaluated where it fails: a view is built for a node whose language
    is "plaintext"; in the editable editor the user picks "javascript", the
    transaction is dispatched and the update hook accepts the new node; the
    editor is then made read-only and the user picks "go".  Nothing more is
    dispatched and the node keeps "javascript", but the control is set to
    "plaintext", the language of the node the view was built with, not to
    the node's current language. *)
Theorem read_only_change_resets_to_first_language :
  let this := CodeBlock.extension "codeBlock" ∅ in
  let n0 := PM.create (CodeBlock.type this) {[ "language" := "plaintext" ]} [] in
  let n1 := PM.create (CodeBlock.type this) {[ "language" := "javascript" ]} [] in
  let e := {| Editor.isEditable := true; Editor.isActive := λ _, true;
              Editor.state_doc := [n0]; Editor.dispatched := []; Editor.commands := [] |} in
  let props := {| CodeBlock.node := n0; CodeBlock.getPos := CodeBlock.GetPosFunction (λ _, 0) |} in
  let v0 := CodeBlock.addNodeView CodeBlock.addOptions props e in
  let v1 := CodeBlock.select_language "javascript" props v0 in
  let v2 := snd (CodeBlock.update this n1 v1) in
  let v3 := CodeBlock.set_editor (Editor.setEditable false (CodeBlock.editor v2)) v2 in
  let v4 := CodeBlock.select_language "go" props v3 in
  Editor.state_doc (CodeBlock.editor v1) = [n1] ∧
  fst (CodeBlock.update this n1 v1) = true ∧
  CodeBlock.language_value v2 = "javascript" ∧
  Editor.dispatched (CodeBlock.editor v4) = Editor.dispatched (CodeBlock.editor v3) ∧
  PM.attrs_language <$> Editor.state_doc (CodeBlock.editor v4) !! 0 = Some (Some "javascript") ∧
  CodeBlock.language_value v4 = "plaintext".
Proof. cbv zeta. repeat split; vm_compute; reflexivity. Qed.

(** ** The copy button *)

(** The click writes the text of the first child of the node the view was
    built with. *)
Lemma copy_click_clipboard (props : CodeBlock.NodeViewProps) (v : CodeBlock.NodeView) :
  CodeBlock.clipboard (CodeBlock.copy_click props v)
  = CodeBlock.clipboard v ++ [js_or_empty (PM.firstChild_text (CodeBlock.node props))].
Proof. reflexivity. Qed.

(** For a view built for a node whose text is "x=1" and not updated since,
    the click writes exactly "x=1"; the confirmation follows the write and a
    timer of 1000 ms hides it. *)
Example copy_click_fresh_view :
  let this := CodeBlock.extension "codeBlock" ∅ in
  let n0 := PM.create (CodeBlock.type this) ∅ [PM.Text "x=1"] in
  let e := {| Editor.isEditable := true; Editor.isActive := λ _, true;
              Editor.state_doc := [n0]; Editor.dispatched := []; Editor.commands := [] |} in
  let props := {| CodeBlock.node := n0; CodeBlock.getPos := CodeBlock.GetPosFunction (λ _, 0) |} in
  let v := CodeBlock.copy_click props (CodeBlock.addNodeView CodeBlock.addOptions props e) in
  CodeBlock.clipboard v = ["x=1"] ∧
  CodeBlock.copied_shown v = false ∧
  CodeBlock.copied_shown (CodeBlock.copy_written v) = true ∧
  CodeBlock.timers (CodeBlock.copy_written v) = [1000] ∧
  CodeBlock.copied_shown (CodeBlock.copy_timeout (CodeBlock.copy_written v)) = false.
Proof. cbv zeta. repeat split. Qed.

(** C8, evaluated where it fails: a view is built for a node whose text is
    "x=1"; the text is edited to "x=2" and the update hook accepts the new
    node; the copy button is activated.  The clipboard receives "x=1", the
    text of the node the view was built with, while the node's current text
    is "x=2". *)
Theorem copy_click_writes_first_text :
  let this := CodeBlock.extension "codeBlock" ∅ in
  let n0 := PM.create (CodeBlock.type this) ∅ [PM.Text "x=1"] in
  let n1 := PM.create (CodeBlock.type this) ∅ [PM.Text "x=2"] in
  let e := {| Editor.isEditable := true; Editor.isActive := λ _, true;
              Editor.state_doc := [n0]; Editor.dispatched := []; Editor.commands := [] |} in
  let props := {| CodeBlock.node := n0; CodeBlock.getPos := CodeBlock.GetPosFunction (λ _, 0) |} in
  let v0 := CodeBlock.set_editor (Editor.updateState [n1] e) (CodeBlock.addNodeView CodeBlock.addOptions props e) in
  let v1 := snd (CodeBlock.update this n1 v0) in
  let v2 := CodeBlock.copy_click props v1 in
  fst (CodeBlock.update this n1 v0) = true ∧
  first_text_child <$> Editor.state_doc (CodeBlock.editor v2) !! 0 = Some (Some "x=2") ∧
  CodeBlock.clipboard v2 = ["x=1"].
Proof. cbv zeta. repeat split; vm_compute; reflexivity. Qed.

(** ** The float menu view *)

Section FloatMenuView.
Context `{FloatMenu.Host}.

Implicit Types (this : FloatMenu.FloatMenuView) (view : FloatMenu.EditorView)
  (oldState : option FloatMenu.EditorState).

Lemma skip_render_true view oldState :
  FloatMenu.skip_render view oldState = true ↔
  FloatMenu.composing view = true ∨
  ∃ old, oldState = Some old ∧
         FloatMenu.doc_eq (FloatMenu.doc old) (FloatMenu.doc (FloatMenu.state view)) = true ∧
         FloatMenu.selection_eq (FloatMenu.selection old)
           (FloatMenu.selection (FloatMenu.state view)) = true.
Proof.
  unfold FloatMenu.skip_render. rewrite orb_true_iff. split.
  - intros [Hc|Hold]; [by left|right].
    destruct oldState as [old|]; [|discriminate].
    apply andb_true_iff in Hold. by exists old.
  - intros [Hc|(old & -> & Hdoc & Hsel)]; [by left|right].
    by rewrite Hdoc, Hsel.
Qed.

(** The calls [render] makes, by the predicate's answer. *)
Lemma render_calls this :
  FloatMenu.calls (FloatMenu.render this)
  = FloatMenu.calls this ++
    match FloatMenu.show (FloatMenu.options this) with
    | None => [FloatMenu.popover_hide]
    | Some show =>
        FloatMenu.call_show (FloatMenu._createProps this) ::
        if show (FloatMenu.editor this) (FloatMenu._createProps this)
        then (if FloatMenu.onUpdate (FloatMenu.options this)
              then [FloatMenu.call_onUpdate (FloatMenu._createProps this) (FloatMenu.element this)]
              else [])
             ++ [FloatMenu.popover_setProps; FloatMenu.popover_show]
        else [FloatMenu.popover_hide]
    end.
Proof.
  unfold FloatMenu.render, FloatMenu.options_show.
  destruct (FloatMenu.show (FloatMenu.options this)) as [show|]; [|reflexivity].
  cbn [FloatMenu.js_not].
  destruct (show (FloatMenu.editor this) (FloatMenu._createProps this)); cbn [negb].
  - cbn [FloatMenu.with_call FloatMenu.with_popover FloatMenu.options FloatMenu.element].
    destruct (FloatMenu.onUpdate (FloatMenu.options this)); cbn;
      rewrite <- ?app_assoc; reflexivity.
  - cbn. rewrite <- app_assoc. reflexivity.
Qed.

(** The popover after [render], by the predicate's answer. *)
Lemma render_popover this :
  FloatMenu.popover (FloatMenu.render this)
  = if FloatMenu.js_not
         ((λ show, show (FloatMenu.editor this) (FloatMenu._createProps this))
            <$> FloatMenu.show (FloatMenu.options this))
    then {| FloatMenu.visible := false;
            FloatMenu.getReferenceClientRect :=
              FloatMenu.getReferenceClientRect (FloatMenu.popover this) |}
    else {| FloatMenu.visible := true;
            FloatMenu.getReferenceClientRect :=
              Some (λ editor, FloatMenu._createRect this editor (FloatMenu._createProps this)) |}.
Proof.
  unfold FloatMenu.render, FloatMenu.options_show.
  destruct (FloatMenu.show (FloatMenu.options this)) as [show|]; [|reflexivity].
  cbn [fmap option_fmap option_map FloatMenu.js_not].
  destruct (show (FloatMenu.editor this) (FloatMenu._createProps this)); cbn [negb];
    [|reflexivity].
  cbn [FloatMenu.with_call FloatMenu.with_popover FloatMenu.options].
  destruct (FloatMenu.onUpdate (FloatMenu.options this)); reflexivity.
Qed.

(** C3: [update] changes nothing and calls nothing when the editor view is
    composing, or when a prior state is given whose document and selection
    both compare equal to those of the current state. *)
Theorem update_skip this view oldState :
  FloatMenu.composing view = true ∨
  (∃ old, oldState = Some old ∧
          FloatMenu.doc_eq (FloatMenu.doc old) (FloatMenu.doc (FloatMenu.state view)) = true ∧
          FloatMenu.selection_eq (FloatMenu.selection old)
            (FloatMenu.selection (FloatMenu.state view)) = true) →
  FloatMenu.update this view oldState = this.
Proof.
  intros Hskip. apply skip_render_true in Hskip.
  unfold FloatMenu.update. by rewrite Hskip.
Qed.

(** C4: when [update] is not skipped and the predicate answers false, or
    none is configured, the popover is hidden and neither [onUpdate] nor the
    popover's [show] is called; when the predicate answers true, [onUpdate]
    is called, if supplied, with the context and the element, the popover
    gets a new anchor function, and the popover is shown.  The new anchor
    gives the rectangle for the range of this update: the one the
    configured [rect] function computes, or else the rectangle of the DOM
    node at the range's start for a node selection with such a node, and
    the rectangle of the range otherwise. *)
Theorem update_visibility this view oldState :
  FloatMenu.skip_render view oldState = false →
  let props := FloatMenu._createProps this in
  let after := FloatMenu.update this view oldState in
  match FloatMenu.show (FloatMenu.options this) with
  | None =>
      FloatMenu.calls after = FloatMenu.calls this ++ [FloatMenu.popover_hide] ∧
      FloatMenu.visible (FloatMenu.popover after) = false ∧
      FloatMenu.getReferenceClientRect (FloatMenu.popover after)
      = FloatMenu.getReferenceClientRect (FloatMenu.popover this)
  | Some show =>
      if show (FloatMenu.editor this) props
      then
        FloatMenu.calls after
        = FloatMenu.calls this ++ [FloatMenu.call_show props]
          ++ (if FloatMenu.onUpdate (FloatMenu.options this)
              then [FloatMenu.call_onUpdate props (FloatMenu.element this)] else [])
          ++ [FloatMenu.popover_setProps; FloatMenu.popover_show] ∧
        FloatMenu.visible (FloatMenu.popover after) = true ∧
        FloatMenu.getReferenceClientRect (FloatMenu.popover after)
        = Some (λ editor, FloatMenu._createRect this editor props) ∧
        ∃ anchor,
          FloatMenu.getReferenceClientRect (FloatMenu.popover after) = Some anchor ∧
          ∀ later : FloatMenu.Editor,
            anchor later =
            match FloatMenu.rect (FloatMenu.options this) with
            | Some rect => rect later props
            | None =>
                let dom := FloatMenu.dom (FloatMenu.view later) in
                let from := FloatMenu.from (FloatMenu.range props) in
                let to := FloatMenu.to (FloatMenu.range props) in
                if FloatMenu.isNodeSelection
                     (FloatMenu.selection (FloatMenu.state (FloatMenu.view later)))
                then match FloatMenu.nodeDOM dom from with
                     | Some node => FloatMenu.getBoundingClientRect node
                     | None => FloatMenu.posToDOMRect dom from to
                     end
                else FloatMenu.posToDOMRect dom from to
            end
      else
        FloatMenu.calls after
        = FloatMenu.calls this ++ [FloatMenu.call_show props; FloatMenu.popover_hide] ∧
        FloatMenu.visible (FloatMenu.popover after) = false ∧
        FloatMenu.getReferenceClientRect (FloatMenu.popover after)
        = FloatMenu.getReferenceClientRect (FloatMenu.popover this)
  end.
Proof.
  intros Hskip props after. subst props after.
  unfold FloatMenu.update. rewrite Hskip.
  rewrite render_calls, render_popover.
  destruct (FloatMenu.show (FloatMenu.options this)) as [show|];
    cbn [fmap option_fmap option_map FloatMenu.js_not]; [|done].
  destruct (show (FloatMenu.editor this) (FloatMenu._createProps this)); cbn [negb];
    [|done].
  split; [done|]. split; [done|]. split; [done|].
  eexists. split; [reflexivity|]. intros later. cbv beta zeta.
  unfold FloatMenu._createRect.
  by destruct (FloatMenu.rect (FloatMenu.options this)).
Qed.

(** C10: without a prior state, and when the view is not composing,
    [update] is never skipped: it goes on to the visibility test, calling
    the predicate when one is configured, whatever the document and the
    selection are. *)
Theorem update_without_prior_state this view :
  FloatMenu.composing view = false →
  FloatMenu.skip_render view None = false ∧
  FloatMenu.update this view None = FloatMenu.render this ∧
  (∀ show, FloatMenu.show (FloatMenu.options this) = Some show →
     ∃ rest, FloatMenu.calls (FloatMenu.update this view None)
             = FloatMenu.calls this ++ FloatMenu.call_show (FloatMenu._createProps this) :: rest) ∧
  FloatMenu.update this view None ≠ this.
Proof.
  intros Hc.
  assert (Hskip : FloatMenu.skip_render view None = false).
  { unfold FloatMenu.skip_render. by rewrite Hc. }
  assert (Hupd : FloatMenu.update this view None = FloatMenu.render this).
  { unfold FloatMenu.update. by rewrite Hskip. }
  split; [exact Hskip|]. split; [exact Hupd|]. rewrite Hupd. split.
  - intros show Hshow. rewrite render_calls, Hshow. eauto.
  - intros Heq. apply (f_equal FloatMenu.calls) in Heq.
    rewrite render_calls in Heq. apply (f_equal length) in Heq.
    rewrite length_app in Heq.
    destruct (FloatMenu.show (FloatMenu.options this)); cbn [length] in Heq; lia.
Qed.

End FloatMenuView.

(** *** The view run on a small host *)

Section OnTextHost.
#[local] Existing Instance FloatMenu.text_host.

Lemma update_skip_witness :
  FloatMenu.update (FloatMenu.abc_menu (Some true)) (FloatMenu.abc_view true) None = FloatMenu.abc_menu (Some true) ∧
  FloatMenu.update (FloatMenu.abc_menu (Some true)) (FloatMenu.abc_view false) (Some FloatMenu.abc_state) = FloatMenu.abc_menu (Some true).
Proof.
  split.
  - apply update_skip. left. reflexivity.
  - apply update_skip. right. exists FloatMenu.abc_state. repeat split.
Defined.

Lemma update_visibility_witness :
  let props := {| FloatMenu.range := {| FloatMenu.from := FloatMenu.Finite 1;
                                        FloatMenu.to := FloatMenu.Finite 3 |} |} in
  let shown := FloatMenu.update (FloatMenu.abc_menu (Some true)) (FloatMenu.abc_view false) None in
  let hidden := FloatMenu.update (FloatMenu.abc_menu (Some false)) (FloatMenu.abc_view false) None in
  let unset := FloatMenu.update (FloatMenu.abc_menu None) (FloatMenu.abc_view false) None in
  let moved := FloatMenu.update (FloatMenu.two_range_menu true)
                 (FloatMenu.view (FloatMenu.editor (FloatMenu.two_range_menu true))) None in
  (FloatMenu.calls shown
   = [FloatMenu.call_show props; FloatMenu.call_onUpdate props "div.tiptap-fm";
      FloatMenu.popover_setProps; FloatMenu.popover_show] ∧
   FloatMenu.visible (FloatMenu.popover shown) = true ∧
   ∃ anchor,
     FloatMenu.getReferenceClientRect (FloatMenu.popover shown) = Some anchor ∧
     anchor {| FloatMenu.view := FloatMenu.abc_view false |}
     = (FloatMenu.Finite 1, FloatMenu.Finite 3)) ∧
  (FloatMenu.calls hidden = [FloatMenu.call_show props; FloatMenu.popover_hide] ∧
   FloatMenu.visible (FloatMenu.popover hidden) = false) ∧
  (FloatMenu.calls unset = [FloatMenu.popover_hide] ∧
   FloatMenu.visible (FloatMenu.popover unset) = false) ∧
  (∃ anchor,
     FloatMenu.getReferenceClientRect (FloatMenu.popover moved) = Some anchor ∧
     anchor (FloatMenu.editor (FloatMenu.two_range_menu true))
     = (FloatMenu.Finite 2, FloatMenu.Finite 9)).
Proof.
  intros props shown hidden unset moved.
  pose proof (update_visibility (FloatMenu.abc_menu (Some true)) (FloatMenu.abc_view false) None eq_refl) as Hshown.
  pose proof (update_visibility (FloatMenu.abc_menu (Some false)) (FloatMenu.abc_view false) None eq_refl) as Hhidden.
  pose proof (update_visibility (FloatMenu.abc_menu None) (FloatMenu.abc_view false) None eq_refl) as Hunset.
  pose proof (update_visibility (FloatMenu.two_range_menu true)
                (FloatMenu.view (FloatMenu.editor (FloatMenu.two_range_menu true))) None eq_refl) as Hmoved.
  cbn in Hshown, Hhidden, Hunset, Hmoved.
  destruct Hshown as (Hc1 & Hv1 & _ & anchor1 & Ha1 & Hat1), Hhidden as (Hc2 & Hv2 & _),
    Hunset as (Hc3 & Hv3 & _), Hmoved as (_ & _ & _ & anchor2 & Ha2 & Hat2).
  refine (conj (conj Hc1 (conj Hv1 _)) (conj (conj Hc2 Hv2) (conj (conj Hc3 Hv3) _))).
  - exists anchor1. split; [exact Ha1|].
    exact (Hat1 {| FloatMenu.view := FloatMenu.abc_view false |}).
  - exists anchor2. split; [exact Ha2|].
    exact (Hat2 (FloatMenu.editor (FloatMenu.two_range_menu true))).
Defined.

Lemma update_without_prior_state_witness :
  FloatMenu.update (FloatMenu.abc_menu (Some false)) (FloatMenu.abc_view false) None
  = FloatMenu.render (FloatMenu.abc_menu (Some false)) ∧
  FloatMenu.update (FloatMenu.abc_menu (Some false)) (FloatMenu.abc_view false) None ≠ FloatMenu.abc_menu (Some false).
Proof.
  destruct (update_without_prior_state (FloatMenu.abc_menu (Some false)) (FloatMenu.abc_view false) eq_refl)
    as (_ & Hupd & _ & Hne).
  split; [exact Hupd | exact Hne].
Defined.

End OnTextHost.

(** * Further properties of the float menu view *)

Local Open Scope nat_scope.

(** ** The range handed to the callbacks *)

Lemma foldr_min_spec (f : FloatMenu.SelectionRange → nat) (r0 : FloatMenu.SelectionRange)
    (rs : list FloatMenu.SelectionRange) :
  (∀ r, r ∈ r0 :: rs → foldr Nat.min (f r0) (map f rs) ≤ f r) ∧
  (∃ r, r ∈ r0 :: rs ∧ f r = foldr Nat.min (f r0) (map f rs)).
Proof.
  induction rs as [|r1 rs [IHle [w [Hw Hfw]]]]; cbn [map foldr].
  - split.
    + intros r Hr. apply list_elem_of_singleton in Hr as ->. lia.
    + exists r0. split; [left|reflexivity].
  - split.
    + intros r Hr. apply elem_of_cons in Hr as [->|Hr].
      * specialize (IHle r0 ltac:(left)). lia.
      * apply elem_of_cons in Hr as [->|Hr]; [lia|].
        specialize (IHle r ltac:(by right)). lia.
    + destruct (Nat.min_spec (f r1) (foldr Nat.min (f r0) (map f rs))) as [[_ ->]|[_ ->]].
      * exists r1. split; [right; left|reflexivity].
      * exists w. split; [|exact Hfw].
        apply elem_of_cons in Hw as [->|Hw]; [left|by do 2 right].
Qed.

Lemma foldr_max_spec (f : FloatMenu.SelectionRange → nat) (r0 : FloatMenu.SelectionRange)
    (rs : list FloatMenu.SelectionRange) :
  (∀ r, r ∈ r0 :: rs → f r ≤ foldr Nat.max (f r0) (map f rs)) ∧
  (∃ r, r ∈ r0 :: rs ∧ f r = foldr Nat.max (f r0) (map f rs)).
Proof.
  induction rs as [|r1 rs [IHle [w [Hw Hfw]]]]; cbn [map foldr].
  - split.
    + intros r Hr. apply list_elem_of_singleton in Hr as ->. lia.
    + exists r0. split; [left|reflexivity].
  - split.
    + intros r Hr. apply elem_of_cons in Hr as [->|Hr].
      * specialize (IHle r0 ltac:(left)). lia.
      * apply elem_of_cons in Hr as [->|Hr]; [lia|].
        specialize (IHle r ltac:(by right)). lia.
    + destruct (Nat.max_spec (f r1) (foldr Nat.max (f r0) (map f rs))) as [[_ ->]|[_ ->]].
      * exists w. split; [|exact Hfw].
        apply elem_of_cons in Hw as [->|Hw]; [left|by do 2 right].
      * exists r1. split; [right; left|reflexivity].
Qed.

Section FloatMenuRange.
Context `{FloatMenu.Host}.

Implicit Types (this : FloatMenu.FloatMenuView) (view : FloatMenu.EditorView)
  (oldState : option FloatMenu.EditorState).

(** X1: for a selection with at least one range, the range of [_createProps]
    runs from the least start to the greatest end of the selection's ranges:
    both ends are finite, each is the end of some range, the range covers
    every range of the selection, and it is ordered when that range is. *)
Theorem createProps_range_covers this (r : FloatMenu.SelectionRange) :
  r ∈ FloatMenu.selection_ranges this →
  ∃ lo hi,
    FloatMenu.range (FloatMenu._createProps this)
    = {| FloatMenu.from := FloatMenu.Finite lo; FloatMenu.to := FloatMenu.Finite hi |} ∧
    lo ≤ FloatMenu.from_pos r ∧
    FloatMenu.to_pos r ≤ hi ∧
    (∃ r1, r1 ∈ FloatMenu.selection_ranges this ∧ FloatMenu.from_pos r1 = lo) ∧
    (∃ r2, r2 ∈ FloatMenu.selection_ranges this ∧ FloatMenu.to_pos r2 = hi) ∧
    (FloatMenu.from_pos r ≤ FloatMenu.to_pos r → lo ≤ hi).
Proof.
  unfold FloatMenu.selection_ranges, FloatMenu._createProps. cbn [FloatMenu.range].
  destruct (FloatMenu.ranges _) as [|r0 rs]; [intros Hr; by apply elem_of_nil in Hr|].
  intros Hr. cbn [map FloatMenu.Math_min FloatMenu.Math_max].
  destruct (foldr_min_spec FloatMenu.from_pos r0 rs) as [Hmin Hmin_at].
  destruct (foldr_max_spec FloatMenu.to_pos r0 rs) as [Hmax Hmax_at].
  eexists _, _. split; [reflexivity|].
  specialize (Hmin r Hr). specialize (Hmax r Hr).
  repeat split; [exact Hmin|exact Hmax|exact Hmin_at|exact Hmax_at|lia].
Qed.

End FloatMenuRange.

(** ** Updates of the view *)

Section FloatMenuUpdates.
Context `{FloatMenu.Host}.

Implicit Types (this : FloatMenu.FloatMenuView) (view : FloatMenu.EditorView)
  (oldState : option FloatMenu.EditorState).

(** X2: when the view is not composing and the prior state differs from the
    current one in its document or in its selection, [update] is not
    skipped: it renders. *)
Theorem update_renders_on_change this view (old : FloatMenu.EditorState) :
  FloatMenu.composing view = false →
  FloatMenu.doc_eq (FloatMenu.doc old) (FloatMenu.doc (FloatMenu.state view)) = false ∨
  FloatMenu.selection_eq (FloatMenu.selection old) (FloatMenu.selection (FloatMenu.state view))
  = false →
  FloatMenu.update this view (Some old) = FloatMenu.render this.
Proof.
  intros Hc Hdiff. unfold FloatMenu.update, FloatMenu.skip_render. rewrite Hc. cbn [orb].
  destruct Hdiff as [->| ->]; [reflexivity|]. by rewrite andb_false_r.
Qed.

(** X5: an update never takes the popover's anchor away: once an anchor
    function is set, it is set after every later update, and an update that
    hides the popover keeps the very anchor it had. *)
Theorem update_keeps_anchor this view oldState :
  (is_Some (FloatMenu.getReferenceClientRect (FloatMenu.popover this)) →
   is_Some (FloatMenu.getReferenceClientRect
              (FloatMenu.popover (FloatMenu.update this view oldState)))) ∧
  (FloatMenu.visible (FloatMenu.popover (FloatMenu.update this view oldState)) = false →
   FloatMenu.skip_render view oldState = false →
   FloatMenu.getReferenceClientRect (FloatMenu.popover (FloatMenu.update this view oldState))
   = FloatMenu.getReferenceClientRect (FloatMenu.popover this)).
Proof.
  unfold FloatMenu.update.
  destruct (FloatMenu.skip_render view oldState); [by split|].
  rewrite render_popover. destruct (FloatMenu.js_not _); cbn; split; eauto; done.
Qed.

(** X6: when the predicate answers true and no anchor function is
    configured, the anchor set by [update] is computed when the popover
    engine asks for it, on the editor of that moment, for the range taken at
    the update: the rectangle of the DOM node at the range's start when the
    selection is then a node selection with such a node, and the rectangle
    of the range otherwise. *)
Theorem update_anchor_default this view oldState
    (show : FloatMenu.Editor → FloatMenu.Props → bool) :
  FloatMenu.skip_render view oldState = false →
  FloatMenu.show (FloatMenu.options this) = Some show →
  show (FloatMenu.editor this) (FloatMenu._createProps this) = true →
  FloatMenu.rect (FloatMenu.options this) = None →
  ∃ anchor,
    FloatMenu.getReferenceClientRect (FloatMenu.popover (FloatMenu.update this view oldState))
    = Some anchor ∧
    ∀ later : FloatMenu.Editor,
      let range := FloatMenu.range (FloatMenu._createProps this) in
      let dom := FloatMenu.dom (FloatMenu.view later) in
      anchor later =
      match FloatMenu.isNodeSelection (FloatMenu.selection (FloatMenu.state (FloatMenu.view later))),
            FloatMenu.nodeDOM dom (FloatMenu.from range) with
      | true, Some node => FloatMenu.getBoundingClientRect node
      | _, _ => FloatMenu.posToDOMRect dom (FloatMenu.from range) (FloatMenu.to range)
      end.
Proof.
  intros Hskip Hshow Htrue Hrect. unfold FloatMenu.update. rewrite Hskip.
  rewrite render_popover, Hshow. cbn [fmap option_fmap option_map FloatMenu.js_not].
  rewrite Htrue. cbn [negb FloatMenu.getReferenceClientRect].
  eexists. split; [reflexivity|]. intros later. cbv zeta.
  unfold FloatMenu._createRect. rewrite Hrect.
  destruct (FloatMenu.isNodeSelection _); [|reflexivity].
  by destruct (FloatMenu.nodeDOM _ _).
Qed.

End FloatMenuUpdates.

(** * Further properties of the code-block extension *)

(** ** Attributes and the markup round trip *)

(** X7: a node of the extension's type created without a language carries
    the default language "plaintext". *)
Theorem language_defaults_to_plaintext (name : string) (global_attrs given : PM.Attrs)
    (c : list PM.Node) :
  given !! "language" = None →
  PM.attrs_language (PM.create (CodeBlock.type (CodeBlock.extension name global_attrs)) given c)
  = Some "plaintext".
Proof. intros Hnone. by apply create_language_default. Qed.

Lemma parse_code_node_lang (name : string) (global_attrs : PM.Attrs) (doc_type : PM.NodeType)
    (lang : option string) (text : string) :
  CodeBlock.parse (CodeBlock.extension name global_attrs) doc_type (code_node lang text)
  = Some [PM.create (CodeBlock.node_type name global_attrs) (CodeBlock.language_attrs lang)
            (match text with EmptyString => [] | String _ _ => [PM.Text text] end)].
Proof.
  unfold CodeBlock.parse, CodeBlock.parser_match, CodeBlock.parser_apply.
  cbn [code_node Markdown.type Markdown.lang Markdown.value].
  rewrite bool_decide_eq_true_2 by reflexivity.
  destruct text; reflexivity.
Qed.

Lemma serialize_created (name : string) (global_attrs given : PM.Attrs) (c : list PM.Node) :
  CodeBlock.serialize (CodeBlock.extension name global_attrs)
    [PM.create (CodeBlock.node_type name global_attrs) given c]
  = [code_node (PM.attrs_language (PM.create (CodeBlock.node_type name global_attrs) given c))
       (js_or_empty (PM.firstChild_text (PM.create (CodeBlock.node_type name global_attrs) given c)))].
Proof.
  unfold CodeBlock.serialize. cbn [foldl]. unfold CodeBlock.serializer_match.
  cbn [PM.create PM.type PM.name CodeBlock.name CodeBlock.extension CodeBlock.node_type].
  rewrite bool_decide_eq_true_2 by reflexivity. reflexivity.
Qed.

(** X8: a code node whose lang is undefined is parsed into a node with the
    default language, so that serializing it gives the lang "plaintext": the
    missing language does not survive the round trip, the text does. *)
Theorem parse_without_lang (name : string) (global_attrs : PM.Attrs) (doc_type : PM.NodeType)
    (text : string) :
  CodeBlock.serialize (CodeBlock.extension name global_attrs)
    <$> CodeBlock.parse (CodeBlock.extension name global_attrs) doc_type (code_node None text)
  = Some [code_node (Some "plaintext") text].
Proof.
  rewrite parse_code_node_lang. cbn [fmap option_fmap option_map].
  rewrite serialize_created. do 3 f_equal.
  - apply create_language_default. apply lookup_empty.
  - destruct text; reflexivity.
Qed.


(** ** The language control over several events *)

(** One selection in an editable editor, for a view that locates a node of
    the code-block type: what it keeps and what it changes. *)
Lemma select_language_step (name : string) (global_attrs : PM.Attrs)
    (props : CodeBlock.NodeViewProps) (v : CodeBlock.NodeView) (value : string)
    (f : Editor.t → nat) (cur : PM.Node) :
  Editor.isEditable (CodeBlock.editor v) = true →
  CodeBlock.getPos props = CodeBlock.GetPosFunction f →
  Editor.state_doc (CodeBlock.editor v) !! f (CodeBlock.editor v) = Some cur →
  PM.type cur = CodeBlock.node_type name global_attrs →
  let v' := CodeBlock.select_language value props v in
  let new := PM.create (PM.type cur) (<["language" := value]> (PM.attrs (CodeBlock.node props)))
               (PM.content cur) in
  Editor.isEditable (CodeBlock.editor v') = true ∧
  CodeBlock.language_value v' = value ∧
  Editor.state_doc (CodeBlock.editor v')
  = <[f (CodeBlock.editor v) := new]> (Editor.state_doc (CodeBlock.editor v)) ∧
  Editor.state_doc (CodeBlock.editor v') !! f (CodeBlock.editor v) = Some new ∧
  PM.attrs_language new = Some value ∧
  length (Editor.dispatched (CodeBlock.editor v'))
  = S (length (Editor.dispatched (CodeBlock.editor v))).
Proof.
  intros Hed Hpos Hcur Hty v' new. subst v'. unfold CodeBlock.select_language.
  rewrite (language_change_editable props (CodeBlock.set_language_value value v) f cur Hed Hpos Hcur).
  cbn [CodeBlock.set_language_value CodeBlock.set_editor CodeBlock.editor CodeBlock.language_value
       Editor.dispatch Editor.state_doc Editor.dispatched Editor.doc Editor.isEditable].
  split; [exact Hed|]. split; [reflexivity|]. split; [reflexivity|]. split.
  - apply list_lookup_insert_eq. by eapply lookup_lt_Some.
  - split.
    + subst new. rewrite Hty. apply create_language. apply lookup_insert_eq.
    + rewrite length_app. cbn. lia.
Qed.

(** X10: after an option of the control is selected in an editable editor,
    the control and the document agree: the node now at the view's position
    carries the selected language, and the update hook, called with that
    node, accepts it and leaves the view as it is. *)
Theorem select_then_update (name : string) (global_attrs : PM.Attrs)
    (props : CodeBlock.NodeViewProps) (v : CodeBlock.NodeView) (value : string)
    (f : Editor.t → nat) (cur : PM.Node) :
  value ∈ CodeBlock.option_values v →
  Editor.isEditable (CodeBlock.editor v) = true →
  CodeBlock.getPos props = CodeBlock.GetPosFunction f →
  Editor.state_doc (CodeBlock.editor v) !! f (CodeBlock.editor v) = Some cur →
  PM.type cur = CodeBlock.node_type name global_attrs →
  let this := CodeBlock.extension name global_attrs in
  let v' := CodeBlock.select_language value props v in
  ∃ new,
    Editor.state_doc (CodeBlock.editor v') !! f (CodeBlock.editor v) = Some new ∧
    PM.attrs_language new = Some value ∧
    CodeBlock.language_value v' = value ∧
    CodeBlock.update this new v' = (true, v').
Proof.
  intros Hin Hed Hpos Hcur Hty this v'.
  destruct (select_language_step name global_attrs props v value f cur Hed Hpos Hcur Hty)
    as (_ & Hval & _ & Hlook & Hlang & _).
  assert (Hopts : CodeBlock.option_values v' = CodeBlock.option_values v).
  { subst v'. unfold CodeBlock.select_language.
    rewrite (language_change_editable props (CodeBlock.set_language_value value v) f cur
               Hed Hpos Hcur).
    reflexivity. }
  eexists. split; [exact Hlook|]. split; [exact Hlang|]. split; [exact Hval|].
  unfold CodeBlock.update.
  rewrite bool_decide_eq_false_2.
  - rewrite Hlang. cbn [to_DOMString]. fold v' in Hval |- *. f_equal.
    unfold CodeBlock.assign_language_value, CodeBlock.select_value_after.
    rewrite Hopts, bool_decide_eq_true_2 by exact Hin.
    transitivity (CodeBlock.set_language_value (CodeBlock.language_value v') v').
    + by rewrite Hval.
    + by destruct v'.
  - intros Hne. apply Hne. cbn [PM.create PM.type]. exact Hty.
Qed.

(** X11: in an editable editor a selection dispatches nothing and leaves the
    document alone when the view cannot locate its node: [getPos] is not a
    function, or there is no node at the position it gives.  The control
    keeps the selected value. *)
Theorem select_language_not_located (props : CodeBlock.NodeViewProps) (v : CodeBlock.NodeView)
    (value : string) :
  Editor.isEditable (CodeBlock.editor v) = true →
  (∃ b, CodeBlock.getPos props = CodeBlock.GetPosBoolean b) ∨
  (∃ f, CodeBlock.getPos props = CodeBlock.GetPosFunction f ∧
        Editor.state_doc (CodeBlock.editor v) !! f (CodeBlock.editor v) = None) →
  CodeBlock.select_language value props v = CodeBlock.set_language_value value v.
Proof.
  intros Hed Hpos. unfold CodeBlock.select_language, CodeBlock.language_change.
  cbn [CodeBlock.set_language_value CodeBlock.editor]. rewrite Hed. cbn [negb].
  destruct Hpos as [[b ->]|(f & -> & Hnone)]; [reflexivity|].
  unfold Editor.tr_setNodeMarkup, PM.setNodeMarkup. by rewrite Hnone.
Qed.

(** X12: in a read-only editor, however many languages are selected one
    after the other, the editor is never touched, and the control ends as
    the assignment of the language of the node the view was built with
    leaves it: on that language when it is the value of one of the options,
    and empty, no option being selected, when it is not. *)
Theorem select_all_read_only (props : CodeBlock.NodeViewProps) (v : CodeBlock.NodeView)
    (values : list string) :
  Editor.isEditable (CodeBlock.editor v) = false →
  values ≠ [] →
  CodeBlock.select_all values props v
  = CodeBlock.assign_language_value
      (to_DOMString (PM.attrs_language (CodeBlock.node props))) v ∧
  CodeBlock.editor (CodeBlock.select_all values props v) = CodeBlock.editor v ∧
  ∀ l, PM.attrs_language (CodeBlock.node props) = Some l →
       (l ∈ CodeBlock.option_values v →
        CodeBlock.language_value (CodeBlock.select_all values props v) = l) ∧
       (l ∉ CodeBlock.option_values v →
        CodeBlock.language_value (CodeBlock.select_all values props v) = "").
Proof.
  intros Hro Hne.
  assert (Hall : CodeBlock.select_all values props v
                 = CodeBlock.assign_language_value
                     (to_DOMString (PM.attrs_language (CodeBlock.node props))) v).
  { unfold CodeBlock.select_all.
    assert (Hstep : ∀ value w, Editor.isEditable (CodeBlock.editor w) = false →
              CodeBlock.select_language value props w
              = CodeBlock.assign_language_value
                  (to_DOMString (PM.attrs_language (CodeBlock.node props))) w).
    { intros value w Hw. unfold CodeBlock.select_language.
      rewrite language_change_read_only by exact Hw. reflexivity. }
    destruct values as [|value values]; [done|]. cbn [foldl].
    rewrite Hstep by exact Hro. clear Hne.
    induction values as [|value' values IH]; [reflexivity|].
    cbn [foldl]. rewrite Hstep by exact Hro. exact IH. }
  rewrite Hall. split; [reflexivity|]. split; [reflexivity|].
  intros l Hl. rewrite Hl.
  cbn [to_DOMString CodeBlock.assign_language_value CodeBlock.set_language_value
       CodeBlock.language_value].
  unfold CodeBlock.select_value_after. split; intros Hin.
  - by rewrite bool_decide_eq_true_2.
  - by rewrite bool_decide_eq_false_2.
Qed.

(** X13: in an editable editor, for a view whose [getPos] gives the position
    of a node of the code-block type, selecting several languages one after
    the other dispatches one transaction for each; the node then carries the
    language selected last, with the type and the content it had. *)
Theorem select_all_editable (name : string) (global_attrs : PM.Attrs)
    (props : CodeBlock.NodeViewProps) (values : list string) (pos : nat) :
  CodeBlock.getPos props = CodeBlock.GetPosFunction (λ _, pos) →
  ∀ (v : CodeBlock.NodeView) (cur : PM.Node),
    Editor.isEditable (CodeBlock.editor v) = true →
    Editor.state_doc (CodeBlock.editor v) !! pos = Some cur →
    PM.type cur = CodeBlock.node_type name global_attrs →
    let after := CodeBlock.editor (CodeBlock.select_all values props v) in
    ∃ new,
      Editor.state_doc after !! pos = Some new ∧
      PM.attrs_language new = from_option Some (PM.attrs_language cur) (last values) ∧
      PM.type new = PM.type cur ∧
      PM.content new = PM.content cur ∧
      length (Editor.dispatched after)
      = length (Editor.dispatched (CodeBlock.editor v)) + length values.
Proof.
  intros Hpos. unfold CodeBlock.select_all.
  induction values as [|value values IH]; intros v cur Hed Hcur Hty; cbv zeta.
  - cbn. exists cur. repeat split; [exact Hcur|lia].
  - cbn [foldl].
    destruct (select_language_step name global_attrs props v value (λ _, pos) cur
                Hed Hpos Hcur Hty) as (Hed' & _ & _ & Hlook & Hlang & Hlen).
    cbv zeta in *.
    destruct (IH _ _ Hed' Hlook Hty) as (new & Hnew & Hnlang & Hnty & Hncontent & Hnlen).
    exists new. split; [exact Hnew|]. split; [|split; [exact Hnty|split; [exact Hncontent|]]].
    + rewrite Hnlang, Hlang, last_cons. by destruct (last values).
    + rewrite Hnlen, Hlen. cbn [length]. lia.
Qed.

(** ** The copy button over several updates *)

Lemma update_all_clipboard (this : CodeBlock.Extension) (nodes : list PM.Node)
    (v : CodeBlock.NodeView) :
  CodeBlock.clipboard (CodeBlock.update_all this nodes v) = CodeBlock.clipboard v ∧
  CodeBlock.editor (CodeBlock.update_all this nodes v) = CodeBlock.editor v.
Proof.
  unfold CodeBlock.update_all. revert v.
  induction nodes as [|n nodes IH]; intros v; [done|].
  cbn [foldl]. destruct (IH (snd (CodeBlock.update this n v))) as [-> ->].
  unfold CodeBlock.update. by case_bool_decide.
Qed.

(** X16: whatever nodes the update hook has been called with since the view
    was built, accepted or not, a click on the copy button writes the text
    of the first child of the node the view was built with, and touches
    neither the editor nor the control. *)
Theorem copy_click_after_updates (this : CodeBlock.Extension) (props : CodeBlock.NodeViewProps)
    (nodes : list PM.Node) (v : CodeBlock.NodeView) :
  let updated := CodeBlock.update_all this nodes v in
  let clicked := CodeBlock.copy_click props updated in
  CodeBlock.clipboard clicked
  = CodeBlock.clipboard v ++ [js_or_empty (PM.firstChild_text (CodeBlock.node props))] ∧
  CodeBlock.editor clicked = CodeBlock.editor v ∧
  CodeBlock.language_value clicked = CodeBlock.language_value updated.
Proof.
  intros updated clicked. subst updated clicked.
  destruct (update_all_clipboard this nodes v) as [Hclip Hed].
  cbn [CodeBlock.copy_click CodeBlock.clipboard CodeBlock.editor CodeBlock.language_value].
  by rewrite Hclip, Hed.
Qed.

(** * Properties of the control factories *)

(** ** Splitting and joining *)




(** ** The shortcut hint of a button *)


Lemma get_set (key v : string) (e : DOM.Element) : DOM.get key (DOM.set key v e) = v.
Proof. destruct e. unfold DOM.get. cbn. by rewrite lookup_insert_eq. Qed.




(** ** The listeners of an input *)

Lemma listeners_set (key v : string) (e : DOM.Element) :
  DOM.listeners (DOM.set key v e) = DOM.listeners e.
Proof. by destruct e. Qed.

Lemma createInput_listeners (options : FloatMenuInput.Options) :
  DOM.listeners (FloatMenuInput.createInput options)
  = (if FloatMenuInput.onEnter options then ["keydown"] else []) ++
    (if FloatMenuInput.onChange options then ["change"] else []).
Proof.
  destruct options as [id name type value onEnter onChange].
  unfold FloatMenuInput.createInput.
  cbn [FloatMenuInput.id FloatMenuInput.name FloatMenuInput.type FloatMenuInput.value
       FloatMenuInput.onEnter FloatMenuInput.onChange].
  destruct id as [[|? ?]|], type as [[|? ?]|], value as [[|? ?]|], name as [|? ?],
    onEnter, onChange; reflexivity.
Qed.

(** X15: whatever the options, an event on the input built by [createInput]
    calls a callback only if that callback was supplied, and hands it the
    value the input has when the event arrives, not the value it was built
    with: a key press calls [onEnter] only for the key "Enter", a change
    calls [onChange]. *)
Theorem createInput_events (options : FloatMenuInput.Options) (typed : string)
    (e : FloatMenuInput.Event) :
  FloatMenuInput.dispatchEvent e (DOM.set "value" typed (FloatMenuInput.createInput options))
  = match e with
    | FloatMenuInput.KeyDown key =>
        if FloatMenuInput.onEnter options && bool_decide (key = "Enter")
        then [FloatMenuInput.call_onEnter typed] else []
    | FloatMenuInput.Change =>
        if FloatMenuInput.onChange options then [FloatMenuInput.call_onChange typed] else []
    end.
Proof.
  unfold FloatMenuInput.dispatchEvent.
  rewrite listeners_set, createInput_listeners.
  unfold FloatMenuInput.listener. rewrite get_set.
  destruct e as [key|], (FloatMenuInput.onEnter options), (FloatMenuInput.onChange options);
    cbn [app flat_map FloatMenuInput.event_type andb];
    repeat (rewrite bool_decide_eq_true_2 by reflexivity);
    repeat (rewrite bool_decide_eq_false_2 by discriminate);
    rewrite ?app_nil_r; try reflexivity.
Qed.

(** * The further properties on concrete inputs *)

Section FurtherOnTextHost.
#[local] Existing Instance FloatMenu.text_host.

Lemma createProps_range_covers_witness :
  ∃ lo hi,
    FloatMenu.range (FloatMenu._createProps (FloatMenu.two_range_menu true))
    = {| FloatMenu.from := FloatMenu.Finite lo; FloatMenu.to := FloatMenu.Finite hi |} ∧
    lo ≤ 4 ∧ 9 ≤ hi.
Proof.
  destruct (createProps_range_covers (FloatMenu.two_range_menu true)
              {| FloatMenu.from_pos := 4; FloatMenu.to_pos := 9 |})
    as (lo & hi & Hrange & Hlo & Hhi & _).
  - left.
  - exists lo, hi. split; [exact Hrange|]. split; [exact Hlo | exact Hhi].
Defined.

Lemma update_renders_on_change_witness :
  FloatMenu.update (FloatMenu.abc_menu (Some false)) (FloatMenu.abc_view false)
    (Some {| FloatMenu.doc := "abd";
             FloatMenu.selection := FloatMenu.selection FloatMenu.abc_state |})
  = FloatMenu.render (FloatMenu.abc_menu (Some false)).
Proof.
  apply update_renders_on_change; [reflexivity|]. left. reflexivity.
Defined.

Lemma update_keeps_anchor_witness :
  let after := FloatMenu.update (FloatMenu.two_range_menu false)
                 (FloatMenu.view (FloatMenu.editor (FloatMenu.two_range_menu false))) None in
  FloatMenu.visible (FloatMenu.popover after) = false ∧
  FloatMenu.getReferenceClientRect (FloatMenu.popover after)
  = FloatMenu.getReferenceClientRect (FloatMenu.popover (FloatMenu.two_range_menu false)).
Proof.
  intros after.
  assert (Hhidden : FloatMenu.visible (FloatMenu.popover after) = false) by reflexivity.
  split; [exact Hhidden|].
  destruct (update_keeps_anchor (FloatMenu.two_range_menu false)
              (FloatMenu.view (FloatMenu.editor (FloatMenu.two_range_menu false))) None) as [_ Hkeep].
  exact (Hkeep Hhidden eq_refl).
Defined.

Lemma update_anchor_default_witness :
  ∃ anchor,
    FloatMenu.getReferenceClientRect
      (FloatMenu.popover
         (FloatMenu.update (FloatMenu.two_range_menu true)
            (FloatMenu.view (FloatMenu.editor (FloatMenu.two_range_menu true))) None))
    = Some anchor ∧
    anchor {| FloatMenu.view := FloatMenu.abc_view false |}
    = (FloatMenu.Finite 2, FloatMenu.Finite 9).
Proof.
  destruct (update_anchor_default (FloatMenu.two_range_menu true)
              (FloatMenu.view (FloatMenu.editor (FloatMenu.two_range_menu true))) None
              (λ _ _, true) eq_refl eq_refl eq_refl eq_refl) as (anchor & Hset & Hat).
  exists anchor. split; [exact Hset|].
  exact (Hat {| FloatMenu.view := FloatMenu.abc_view false |}).
Defined.

End FurtherOnTextHost.

Lemma language_defaults_to_plaintext_witness :
  PM.attrs_language (PM.create (CodeBlock.type (CodeBlock.extension "codeBlock" ∅)) ∅ [])
  = Some "plaintext".
Proof. apply language_defaults_to_plaintext. reflexivity. Defined.


Lemma python_view_lists_rust :
  "rust" ∈ CodeBlock.option_values (snd (CodeBlock.python_view true 0)).
Proof. apply list_elem_of_In. vm_compute. tauto. Qed.

Lemma select_then_update_witness :
  let '(props, v) := CodeBlock.python_view true 0 in
  let v' := CodeBlock.select_language "rust" props v in
  ∃ new,
    Editor.state_doc (CodeBlock.editor v') !! 0 = Some new ∧
    PM.attrs_language new = Some "rust" ∧
    CodeBlock.update (CodeBlock.extension "codeBlock" ∅) new v' = (true, v').
Proof.
  cbn [CodeBlock.python_view].
  destruct (select_then_update "codeBlock" ∅ (fst (CodeBlock.python_view true 0))
              (snd (CodeBlock.python_view true 0)) "rust" (λ _, 0) CodeBlock.python_block
              python_view_lists_rust eq_refl eq_refl eq_refl eq_refl)
    as (new & Hlook & Hlang & _ & Hupd).
  exists new. split; [exact Hlook|]. split; [exact Hlang | exact Hupd].
Defined.

Lemma select_language_not_located_witness :
  let '(props, v) := CodeBlock.python_view true 7 in
  CodeBlock.select_language "rust" props v = CodeBlock.set_language_value "rust" v.
Proof.
  cbn [CodeBlock.python_view]. apply select_language_not_located; [reflexivity|].
  right. exists (λ _, 7). split; reflexivity.
Defined.

Lemma select_all_read_only_witness :
  let '(props, v) := CodeBlock.python_view false 0 in
  CodeBlock.select_all ["rust"; "go"] props v = v ∧
  CodeBlock.language_value (CodeBlock.select_all ["rust"; "go"] props v) = "python".
Proof.
  cbn [CodeBlock.python_view].
  destruct (select_all_read_only (fst (CodeBlock.python_view false 0))
              (snd (CodeBlock.python_view false 0)) ["rust"; "go"] eq_refl)
    as (Hall & _ & Hlang); [discriminate|].
  split.
  - etransitivity; [exact Hall|]. vm_compute. reflexivity.
  - apply (Hlang "python"); [vm_compute; reflexivity|].
    apply list_elem_of_In. vm_compute. tauto.
Defined.

Lemma select_all_editable_witness :
  let '(props, v) := CodeBlock.python_view true 0 in
  let after := CodeBlock.editor (CodeBlock.select_all ["rust"; "go"] props v) in
  ∃ new,
    Editor.state_doc after !! 0 = Some new ∧
    PM.attrs_language new = Some "go" ∧
    PM.content new = [PM.Text "x=1"] ∧
    length (Editor.dispatched after) = 2.
Proof.
  cbn [CodeBlock.python_view].
  destruct (select_all_editable "codeBlock" ∅ (fst (CodeBlock.python_view true 0)) ["rust"; "go"] 0
              eq_refl (snd (CodeBlock.python_view true 0)) CodeBlock.python_block eq_refl eq_refl eq_refl)
    as (new & Hlook & Hlang & _ & Hcontent & Hlen).
  exists new. split; [exact Hlook|]. split; [exact Hlang|]. split; [exact Hcontent | exact Hlen].
Defined.

